(** * Multi-user chat: the [App] component of src/App.js

    A shallow embedding of the React component [App]: its hook state, its
    event handlers, its two effects (Firebase start-up and the live feed
    subscription) and its render function, followed by the properties of
    the message-sync state machine it implements.

    The component is event driven.  Every callback of the source
    (the continuation of an [await], an [onSnapshot] delivery, a DOM event)
    is one [Event]; [step] runs the callback on the current [World] and then
    lets React commit: an effect whose dependency array changed has its
    clean-up run and is run again. *)

From Stdlib Require Import ZArith NArith Ascii String.
From stdpp Require Import base decidable option list gmap sets strings.

Local Open Scope bool_scope.
Local Open Scope list_scope.

(** ** JavaScript strings *)

(** A JavaScript string is a sequence of UTF-16 code units. *)
Abbreviation jsstring := (list N).

(** A source literal, read as code units. *)
Fixpoint lit (s : string) : jsstring :=
  match s with
  | EmptyString => []
  | String c s' => N_of_ascii c :: lit s'
  end.

Arguments lit : simpl never.

(** [WhiteSpace] and [LineTerminator] of ECMAScript, the code units that
    [String.prototype.trim] strips: TAB, LF, VT, FF, CR, SP, NBSP, U+1680,
    U+2000..U+200A, LS, PS, U+202F, U+205F, U+3000 and U+FEFF. *)
Definition isWhiteSpace (c : N) : bool :=
  existsb (N.eqb c)
    [9; 10; 11; 12; 13; 32; 160; 5760; 8232; 8233; 8239; 8287; 12288; 65279]%N
  || ((8192 <=? c)%N && (c <=? 8202)%N).

Fixpoint trimStart (s : jsstring) : jsstring :=
  match s with
  | [] => []
  | c :: s' => if isWhiteSpace c then trimStart s' else s
  end.

Definition trimEnd (s : jsstring) : jsstring := rev (trimStart (rev s)).

(** [s.trim()] *)
Definition trim (s : jsstring) : jsstring := trimEnd (trimStart s).

(** Truthiness of a string value: only the empty string is falsy. *)
Definition truthy (s : jsstring) : bool :=
  match s with [] => false | _ :: _ => true end.

(** Truthiness of a value that is a string or [null]. *)
Definition truthy_opt (o : option jsstring) : bool :=
  match o with Some s => truthy s | None => false end.

(** ** Data model *)

(** A Firestore [Timestamp]. *)
Record Timestamp := { seconds : Z; nanoseconds : Z }.

(** The store's order on the [createdAt] field. *)
Definition ts_le (a b : Timestamp) : Prop :=
  (seconds a < seconds b)%Z
  \/ (seconds a = seconds b /\ (nanoseconds a <= nanoseconds b)%Z).

(** A JavaScript [Date]: its time value, milliseconds since the epoch. *)
Abbreviation Date := Z (only parsing).

(** What the platform provides and the component only calls:
    [Timestamp.prototype.toDate] of the Firestore SDK and the
    locale-dependent [Date.prototype.toLocaleTimeString]. *)
Class Platform := {
  toDate : Timestamp -> Date;
  toLocaleTimeString : Date -> jsstring
}.

(** The fields of a chat document as the store holds them.  [doc_createdAt]
    is [None] while the server timestamp of a local write is still pending
    (the SDK reports such a field as [null]). *)
Record DocData := {
  doc_text : jsstring;
  doc_uid : jsstring;
  doc_createdAt : option Timestamp
}.

(** One element of [snapshot.docs]. *)
Record Doc := { doc_id : jsstring; doc_data : DocData }.

(** The view-model record built by the snapshot callback. *)
Record Message := {
  msg_id : jsstring;
  msg_text : jsstring;
  msg_uid : jsstring;
  msg_createdAt : Date
}.

(** The value written into a timestamp field: the [serverTimestamp()]
    sentinel, which asks the store to fill in its own time when it commits
    the write, or a [Date] computed on the client. *)
Inductive FieldValue :=
  | serverTimestamp
  | clientDate (d : Date).

(** The object literal passed to [addDoc]. *)
Record NewDoc := {
  new_text : jsstring;
  new_uid : jsstring;
  new_createdAt : FieldValue
}.

(** An [addDoc(collection(db, path), data)] call. *)
Record AddDoc := { add_db : nat; add_path : jsstring; add_data : NewDoc }.

Inductive Direction := Asc | Desc.

(** [query(collection(db, path), orderBy(field))]; [orderBy] with one
    argument orders ascending. *)
Record Query := {
  q_db : nat;
  q_path : jsstring;
  q_orderBy : jsstring;
  q_direction : Direction
}.

Abbreviation Error := (list N) (only parsing).

(** The three [console.error] sites. *)
Inductive ConsoleEntry :=
  | ErrorSettingUpFirebase (e : Error)
  | ErrorFetchingMessages (e : Error)
  | ErrorSendingMessage (e : Error).

Inductive SignInCall :=
  | signInWithCustomToken (firebaseAuth : nat) (token : jsstring)
  | signInAnonymously (firebaseAuth : nat).

(** The globals the hosting page may define.  ([__firebase_config] is only
    handed to [initializeApp], whose outcome is an [InitResult] below.) *)
Record Env := {
  env_app_id : option jsstring;             (* __app_id *)
  env_initial_auth_token : option jsstring  (* __initial_auth_token *)
}.

(** [typeof __app_id !== 'undefined' ? __app_id : 'default-app-id'] *)
Definition appId (e : Env) : jsstring :=
  match env_app_id e with
  | Some a => a
  | None => lit "default-app-id"
  end.

Definition chatCollectionPath (e : Env) : jsstring :=
  lit "/artifacts/" ++ appId e ++ lit "/public/data/chatMessages".

(** ** Hook state *)

(** The seven [useState] cells.  [db] and [auth] hold SDK handles, compared
    by identity; [None] is [null]. *)
Record AppState := {
  db : option nat;
  auth : option nat;
  userId : option jsstring;
  messages : list Message;
  newMessage : jsstring;
  loading : bool;
  darkMode : bool
}.

Definition initialState : AppState :=
  {| db := None; auth := None; userId := None; messages := [];
     newMessage := []; loading := true; darkMode := false |}.

Definition setDb (v : option nat) (s : AppState) : AppState :=
  {| db := v; auth := auth s; userId := userId s; messages := messages s;
     newMessage := newMessage s; loading := loading s; darkMode := darkMode s |}.

Definition setAuth (v : option nat) (s : AppState) : AppState :=
  {| db := db s; auth := v; userId := userId s; messages := messages s;
     newMessage := newMessage s; loading := loading s; darkMode := darkMode s |}.

Definition setUserId (v : option jsstring) (s : AppState) : AppState :=
  {| db := db s; auth := auth s; userId := v; messages := messages s;
     newMessage := newMessage s; loading := loading s; darkMode := darkMode s |}.

Definition setMessages (v : list Message) (s : AppState) : AppState :=
  {| db := db s; auth := auth s; userId := userId s; messages := v;
     newMessage := newMessage s; loading := loading s; darkMode := darkMode s |}.

Definition setNewMessage (v : jsstring) (s : AppState) : AppState :=
  {| db := db s; auth := auth s; userId := userId s; messages := messages s;
     newMessage := v; loading := loading s; darkMode := darkMode s |}.

Definition setLoading (v : bool) (s : AppState) : AppState :=
  {| db := db s; auth := auth s; userId := userId s; messages := messages s;
     newMessage := newMessage s; loading := v; darkMode := darkMode s |}.

Definition setDarkMode (v : bool) (s : AppState) : AppState :=
  {| db := db s; auth := auth s; userId := userId s; messages := messages s;
     newMessage := newMessage s; loading := loading s; darkMode := v |}.

(** ** The world outside the component *)

(** What the component has asked of the SDK and the console so far.
    [listeners] are the [onSnapshot] listeners the component has opened and
    not cancelled; the n-th [onSnapshot] call returns the handle [n], so
    [opened] counts the calls and [queries] lists their queries;
    [unsubscribed] logs every call of an [unsubscribe] function. *)
Record Outside := {
  listeners : gset nat;
  opened : nat;
  queries : list Query;
  unsubscribed : list nat;
  writes : list AddDoc;
  signIns : list SignInCall;
  console : list ConsoleEntry
}.

Definition noCalls : Outside :=
  {| listeners := ∅; opened := 0; queries := []; unsubscribed := [];
     writes := []; signIns := []; console := [] |}.

Definition onSnapshot (q : Query) (o : Outside) : Outside :=
  {| listeners := {[opened o]} ∪ listeners o; opened := S (opened o);
     queries := queries o ++ [q]; unsubscribed := unsubscribed o;
     writes := writes o; signIns := signIns o; console := console o |}.

Definition unsubscribe (sub : nat) (o : Outside) : Outside :=
  {| listeners := listeners o ∖ {[sub]}; opened := opened o;
     queries := queries o; unsubscribed := unsubscribed o ++ [sub];
     writes := writes o; signIns := signIns o; console := console o |}.

Definition addDoc (a : AddDoc) (o : Outside) : Outside :=
  {| listeners := listeners o; opened := opened o; queries := queries o;
     unsubscribed := unsubscribed o; writes := writes o ++ [a];
     signIns := signIns o; console := console o |}.

Definition signIn (c : SignInCall) (o : Outside) : Outside :=
  {| listeners := listeners o; opened := opened o; queries := queries o;
     unsubscribed := unsubscribed o; writes := writes o;
     signIns := signIns o ++ [c]; console := console o |}.

Definition consoleError (c : ConsoleEntry) (o : Outside) : Outside :=
  {| listeners := listeners o; opened := opened o; queries := queries o;
     unsubscribed := unsubscribed o; writes := writes o;
     signIns := signIns o; console := console o ++ [c] |}.

(** Where [setupFirebase] stands: not started, suspended at the sign-in
    [await], past it with the [onAuthStateChanged] observer registered, or
    ended in its [catch]. *)
Inductive Boot := NotStarted | SigningIn | Observing | Caught.

(** The mounted component instance and the world around it.  [feed] is the
    clean-up React holds for the subscription effect: [Some sub] stands for
    the closure [() => unsubscribe()] of listener [sub], [None] for an
    effect run that returned nothing.  [inflight] counts the [addDoc]
    promises not yet settled. *)
Record World := {
  env : Env;
  mounted : bool;
  st : AppState;
  boot : Boot;
  feed : option nat;
  inflight : nat;
  out : Outside
}.

Definition with_st (f : AppState -> AppState) (w : World) : World :=
  {| env := env w; mounted := mounted w; st := f (st w); boot := boot w;
     feed := feed w; inflight := inflight w; out := out w |}.

Definition with_out (f : Outside -> Outside) (w : World) : World :=
  {| env := env w; mounted := mounted w; st := st w; boot := boot w;
     feed := feed w; inflight := inflight w; out := f (out w) |}.

Definition with_boot (b : Boot) (w : World) : World :=
  {| env := env w; mounted := mounted w; st := st w; boot := b;
     feed := feed w; inflight := inflight w; out := out w |}.

Definition with_feed (c : option nat) (w : World) : World :=
  {| env := env w; mounted := mounted w; st := st w; boot := boot w;
     feed := c; inflight := inflight w; out := out w |}.

Definition with_inflight (n : nat) (w : World) : World :=
  {| env := env w; mounted := mounted w; st := st w; boot := boot w;
     feed := feed w; inflight := n; out := out w |}.

Definition defaultEnv : Env :=
  {| env_app_id := None; env_initial_auth_token := None |}.

(** Before the first mount. *)
Definition initWorld : World :=
  {| env := defaultEnv; mounted := false; st := initialState;
     boot := NotStarted; feed := None; inflight := 0; out := noCalls |}.

(** ** Start-up: the first effect *)

(** Outcome of the synchronous prefix of [setupFirebase]:
    [initializeApp], [getFirestore] and [getAuth] return their handles, or
    one of them throws. *)
Inductive InitResult :=
  | InitOk (firestore firebaseAuth : nat)
  | InitThrows (e : Error).

(** The [catch] block of [setupFirebase]. *)
Definition setupCatch (e : Error) (w : World) : World :=
  with_boot Caught
    (with_st (setLoading false)
       (with_out (consoleError (ErrorSettingUpFirebase e)) w)).

(** [initialAuthToken ? signInWithCustomToken(...) : signInAnonymously(...)] *)
Definition signInCall (e : Env) (firebaseAuth : nat) : SignInCall :=
  match env_initial_auth_token e with
  | Some token =>
      if truthy token then signInWithCustomToken firebaseAuth token
      else signInAnonymously firebaseAuth
  | None => signInAnonymously firebaseAuth
  end.

(** [setupFirebase] up to its [await]. *)
Definition setupFirebase (r : InitResult) (w : World) : World :=
  match r with
  | InitOk firestore firebaseAuth =>
      let w1 := with_st (setDb (Some firestore)) w in
      let w2 := with_st (setAuth (Some firebaseAuth)) w1 in
      with_boot SigningIn (with_out (signIn (signInCall (env w) firebaseAuth)) w2)
  | InitThrows e => setupCatch e w
  end.

(** The observer passed to [onAuthStateChanged]; [uuid] is what
    [crypto.randomUUID()] returns if it is called.  The call that throws
    instead is the occurrence [RandomUUIDThrows] below. *)
Definition authObserver (user : option jsstring) (uuid : jsstring)
    (s : AppState) : AppState :=
  match user with
  | Some uid => setLoading false (setUserId (Some uid) s)
  | None => setLoading false (setUserId (Some uuid) s)
  end.

(** ** The live feed: the second effect *)

Definition feedQuery (e : Env) (d : nat) : Query :=
  {| q_db := d; q_path := chatCollectionPath e;
     q_orderBy := lit "createdAt"; q_direction := Asc |}.

(** Body of the subscription effect: subscribes when [db && userId], and
    returns the clean-up only then.  [collection] is taken to accept the
    path here; [commitThrowing] below has its throw. *)
Definition feedEffect (w : World) : World :=
  match db (st w) with
  | Some d =>
      if truthy_opt (userId (st w))
      then with_feed (Some (opened (out w)))
             (with_out (onSnapshot (feedQuery (env w) d)) w)
      else with_feed None w
  | None => with_feed None w
  end.

(** React runs the clean-up of the previous run, if it returned one. *)
Definition feedCleanup (w : World) : World :=
  match feed w with
  | Some sub => with_feed None (with_out (unsubscribe sub) w)
  | None => w
  end.

(** The dependency array [[db, userId, appId]]. *)
Definition deps (w : World) : option nat * option jsstring * jsstring :=
  (db (st w), userId (st w), appId (env w)).

(** After a callback React renders again; the subscription effect is
    cleaned up and re-run exactly when a dependency changed. *)
Definition commit (before after : World) : World :=
  if decide (deps before = deps after) then after
  else feedEffect (feedCleanup after).

Section WithPlatform.
Context `{Platform}.

(** The mapping function of the snapshot callback; [now] is the value of
    [new Date()] at the moment this document is mapped. *)
Definition toMessage (now : Date) (doc : Doc) : Message :=
  {| msg_id := doc_id doc;
     msg_text := doc_text (doc_data doc);
     msg_uid := doc_uid (doc_data doc);
     msg_createdAt :=
       match doc_createdAt (doc_data doc) with
       | Some ts => toDate ts
       | None => now
       end |}.

(** [snapshot.docs.map(doc => ...)]; [clock i] is the client clock read
    while the [i]-th document is mapped. *)
Definition fetchedMessages (clock : nat -> Date) (docs : list Doc)
    : list Message :=
  imap (fun i doc => toMessage (clock i) doc) docs.

(** The [onSnapshot] success callback. *)
Definition snapshotNext (clock : nat -> Date) (docs : list Doc)
    (w : World) : World :=
  with_st (setMessages (fetchedMessages clock docs)) w.

(** The [onSnapshot] error callback. *)
Definition snapshotError (e : Error) (w : World) : World :=
  with_out (consoleError (ErrorFetchingMessages e)) w.

(** ** The composer *)

(** [newMessage.trim() === '' || !db || !userId] *)
Definition sendBlocked (s : AppState) : bool :=
  bool_decide (trim (newMessage s) = [])
  || negb (bool_decide (is_Some (db s)))
  || negb (truthy_opt (userId s)).

(** [handleSendMessage] up to its [await]: the guard, then the [addDoc]
    call.  ([e.preventDefault()] acts on the DOM event only.)  [collection]
    is taken to accept the path here; [handleSendMessageThrowing] below has
    its throw. *)
Definition handleSendMessage (w : World) : World :=
  if sendBlocked (st w) then w
  else
    match db (st w), userId (st w) with
    | Some d, Some u =>
        with_inflight (S (inflight w))
          (with_out
             (addDoc {| add_db := d;
                        add_path := chatCollectionPath (env w);
                        add_data := {| new_text := newMessage (st w);
                                       new_uid := u;
                                       new_createdAt := serverTimestamp |} |})
             w)
    | _, _ => w
    end.

(** After the [await]: the promise resolved. *)
Definition sendResolved (w : World) : World :=
  with_inflight (pred (inflight w)) (with_st (setNewMessage []) w).

(** After the [await]: the promise rejected, the [catch] block. *)
Definition sendRejected (e : Error) (w : World) : World :=
  with_inflight (pred (inflight w))
    (with_out (consoleError (ErrorSendingMessage e)) w).

Definition toggleDarkMode (w : World) : World :=
  with_st (fun s => setDarkMode (negb (darkMode s)) s) w.

(** ** Events and the step function *)

Inductive Event :=
  | Mount (e : Env) (r : InitResult)
  | SignInResolved
  | SignInRejected (err : Error)
  | AuthStateChanged (user : option jsstring) (uuid : jsstring)
  | SnapshotNext (sub : nat) (docs : list Doc) (clock : nat -> Date)
  | SnapshotError (sub : nat) (err : Error)
  | InputChange (value : jsstring)
  | Submit
  | AddDocResolved
  | AddDocRejected (err : Error)
  | ToggleDarkMode
  | Unmount.

(** The callback an event runs.  A callback the SDK cannot invoke in the
    current state (a snapshot for a cancelled listener, a settlement with
    no promise pending, the auth observer before it is registered) is no
    event of the component and changes nothing. *)
Definition handle (ev : Event) (w : World) : World :=
  match ev with
  | Mount _ _ | Unmount => w
  | SignInResolved =>
      match boot w with SigningIn => with_boot Observing w | _ => w end
  | SignInRejected err =>
      match boot w with SigningIn => setupCatch err w | _ => w end
  | AuthStateChanged user uuid =>
      match boot w with
      | Observing => with_st (authObserver user uuid) w
      | _ => w
      end
  | SnapshotNext sub docs clock =>
      if decide (sub ∈ listeners (out w)) then snapshotNext clock docs w
      else w
  | SnapshotError sub err =>
      if decide (sub ∈ listeners (out w)) then snapshotError err w else w
  | InputChange value => with_st (setNewMessage value) w
  | Submit => handleSendMessage w
  | AddDocResolved =>
      match inflight w with 0 => w | S _ => sendResolved w end
  | AddDocRejected err =>
      match inflight w with 0 => w | S _ => sendRejected err w end
  | ToggleDarkMode => toggleDarkMode w
  end.

(** First render of a fresh instance, then its effects.  The first run of
    the subscription effect sees the first render's [db] and [userId], both
    [null]; [setupFirebase()] runs to its [await], and the state it set is
    committed.  The render body is taken to return; the first render that
    throws at [JSON.parse(__firebase_config)] is the occurrence
    [FirstRenderThrows] below. *)
Definition mount (e : Env) (r : InitResult) (w : World) : World :=
  let w0 := {| env := e; mounted := true; st := initialState;
               boot := NotStarted; feed := None; inflight := 0;
               out := out w |} in
  let w1 := feedEffect w0 in
  commit w1 (setupFirebase r w1).

(** The component is discarded: React runs the pending clean-up and drops
    the hook state.  Callbacks still held by the SDK for the discarded
    instance update no state afterwards; what their [catch] blocks still
    write to the console is not recorded. *)
Definition unmount (w : World) : World :=
  let w1 := feedCleanup w in
  {| env := env w1; mounted := false; st := initialState;
     boot := NotStarted; feed := None; inflight := 0; out := out w1 |}.

Definition step (w : World) (ev : Event) : World :=
  match ev with
  | Mount e r => if mounted w then w else mount e r w
  | Unmount => if mounted w then unmount w else w
  | _ => if mounted w then commit w (handle ev w) else w
  end.

Definition run (w : World) (evs : list Event) : World := foldl step w evs.

(** ** Render *)

Record Bubble := {
  b_key : jsstring;
  b_row : string;               (* classes of the row: alignment *)
  b_bubble : string;            (* classes of the bubble: colours *)
  b_label : option jsstring;    (* the sender's uid, when shown *)
  b_text : jsstring;
  b_timeClass : string;
  b_time : jsstring
}.

Definition renderMessage (userId : option jsstring) (msg : Message) : Bubble :=
  let own := bool_decide (Some (msg_uid msg) = userId) in
  {| b_key := msg_id msg;
     b_row := if own then "flex-row-reverse" else "flex-row";
     b_bubble :=
       if own then "bg-indigo-500 text-white rounded-br-none"
       else "bg-white dark:bg-gray-700 text-gray-800 dark:text-gray-200 rounded-bl-none";
     b_label := if negb own then Some (msg_uid msg) else None;
     b_text := msg_text msg;
     b_timeClass :=
       if own then "text-indigo-200" else "text-gray-400 dark:text-gray-500";
     b_time := toLocaleTimeString (msg_createdAt msg) |}.

(** The [<main>] area: the thread, or the placeholder when it is empty. *)
Inductive Thread :=
  | StartTheConversation
  | Bubbles (bs : list Bubble).

Record Chat := {
  c_sunIcon : bool;               (* [darkMode ? sun : moon] *)
  c_userId : option jsstring;     (* the header's "Your User ID" *)
  c_thread : Thread;
  c_input : jsstring;             (* [value] of the text input *)
  c_sendDisabled : bool           (* [disabled] of the Send button *)
}.

Inductive View :=
  | LoadingChat
  | ChatUI (c : Chat).

Definition renderThread (s : AppState) : Thread :=
  match messages s with
  | [] => StartTheConversation
  | _ :: _ => Bubbles (renderMessage (userId s) <$> messages s)
  end.

Definition render (s : AppState) : View :=
  if loading s then LoadingChat
  else ChatUI {| c_sunIcon := darkMode s;
                 c_userId := userId s;
                 c_thread := renderThread s;
                 c_input := newMessage s;
                 c_sendDisabled := bool_decide (trim (newMessage s) = []) |}.

End WithPlatform.

(** The record [handleSendMessage] passes to [addDoc] in state [s]. *)
Definition sentRecord (e : Env) (d : nat) (u : jsstring) (s : AppState)
    : AddDoc :=
  {| add_db := d;
     add_path := chatCollectionPath e;
     add_data := {| new_text := newMessage s; new_uid := u;
                    new_createdAt := serverTimestamp |} |}.

(** The session can write: [db] is set and [userId] is a non-empty string. *)
Definition ready (s : AppState) : Prop :=
  is_Some (db s) /\ truthy_opt (userId s) = true.

#[global] Instance ready_dec (s : AppState) : Decision (ready s).
Proof. unfold ready. apply _. Defined.

(** How often [unsubscribe] was called for listener [sub]. *)
Definition cancellations (sub : nat) (o : Outside) : nat :=
  length (filter (fun x => x = sub) (unsubscribed o)).

(** The ways start-up can end once the first render has succeeded: the
    synchronous prefix of [setupFirebase] throws, the sign-in promise
    rejects, or sign-in resolves and the auth observer is called, with a
    user or with [null] and an id returned by [crypto.randomUUID()]. *)
Inductive Startup :=
  | InitFails (err : Error)
  | SignInFails (firestore firebaseAuth : nat) (err : Error)
  | UserReported (firestore firebaseAuth : nat) (uid : jsstring)
  | NoUserReported (firestore firebaseAuth : nat) (uuid : jsstring).

(** The documents of a snapshot are in the store's ascending [createdAt]
    order, every timestamp being assigned. *)
Definition ascending (docs : list Doc) : Prop :=
  forall i j a b, i <= j -> docs !! i = Some a -> docs !! j = Some b ->
    exists ta tb, doc_createdAt (doc_data a) = Some ta
                  /\ doc_createdAt (doc_data b) = Some tb /\ ts_le ta tb.

(** [setupFirebase] waits for the SDK: for the sign-in promise to settle,
    or, past it, for the auth observer to be called. *)
Definition awaitingSdk (w : World) : Prop :=
  boot w = SigningIn \/ boot w = Observing.

Section Vocabulary.
Context `{Platform}.

Definition startupEvents (e : Env) (o : Startup) : list Event :=
  match o with
  | InitFails err => [Mount e (InitThrows err)]
  | SignInFails firestore firebaseAuth err =>
      [Mount e (InitOk firestore firebaseAuth); SignInRejected err]
  | UserReported firestore firebaseAuth uid =>
      [Mount e (InitOk firestore firebaseAuth); SignInResolved;
       AuthStateChanged (Some uid) []]
  | NoUserReported firestore firebaseAuth uuid =>
      [Mount e (InitOk firestore firebaseAuth); SignInResolved;
       AuthStateChanged None uuid]
  end.

Definition started (e : Env) (o : Startup) : World :=
  run initWorld (startupEvents e o).

(** The bubbles on screen, top to bottom; none while loading or when the
    placeholder is shown. *)
Definition bubbles (v : View) : list Bubble :=
  match v with
  | LoadingChat => []
  | ChatUI c =>
      match c_thread c with StartTheConversation => [] | Bubbles bs => bs end
  end.

(** The chat screen of a session without identity: no user id in the
    header, no feed listener, an empty thread, and a form whose submit does
    nothing whatever was typed. *)
Definition degraded (w : World) : Prop :=
  userId (st w) = None
  /\ listeners (out w) = ∅
  /\ (exists c, render (st w) = ChatUI c /\ c_userId c = None
                /\ c_thread c = StartTheConversation)
  /\ forall text,
       step (step w (InputChange text)) Submit = step w (InputChange text).

End Vocabulary.

(** ** The throws the component does not catch *)

(** [collection(db, path)] of the Firestore SDK checks the path and throws
    for one it rejects.  [collectionThrows path] is the error it throws,
    [None] when it returns a reference. *)
Class Firestore := { collectionThrows : jsstring -> option Error }.

(** What can occur besides the callbacks of [Event]: the render body throws
    at [JSON.parse(__firebase_config)] on the first render, which is outside
    every [try], so React mounts nothing and runs no effect; or the auth
    observer is called with [null] and [crypto.randomUUID()] throws, before
    any setter is reached. *)
Inductive Occurrence :=
  | Callback (ev : Event)
  | FirstRenderThrows (e : Env) (err : Error)
  | RandomUUIDThrows (err : Error).

(** The start-up outcomes in which the sign-in resolved and the auth
    observer was called. *)
Definition reachesObserver (o : Startup) : bool :=
  match o with
  | InitFails _ | SignInFails _ _ _ => false
  | UserReported _ _ _ | NoUserReported _ _ _ => true
  end.

Section Throwing.
Context `{Platform} `{Firestore}.

(** [db && userId], the test of the subscription effect. *)
Definition subscribes (w : World) : bool :=
  bool_decide (is_Some (db (st w))) && truthy_opt (userId (st w)).

(** The commit as React runs it.  The subscription effect calls
    [collection] before [onSnapshot]; the error of a rejected path is not
    caught, so the effect opens no listener and React discards the tree. *)
Definition commitThrowing (before after : World) : World :=
  if decide (deps before = deps after) then after
  else
    let w := feedCleanup after in
    if subscribes w then
      match collectionThrows (chatCollectionPath (env w)) with
      | Some _ => unmount w
      | None => feedEffect w
      end
    else feedEffect w.

(** [handleSendMessage] with the throw of [collection], which is inside
    the [try]: the [catch] block logs it and no [addDoc] is issued. *)
Definition handleSendMessageThrowing (w : World) : World :=
  if sendBlocked (st w) then w
  else
    match collectionThrows (chatCollectionPath (env w)) with
    | Some err => with_out (consoleError (ErrorSendingMessage err)) w
    | None => handleSendMessage w
    end.

Definition handleThrowing (ev : Event) (w : World) : World :=
  match ev with
  | Submit => handleSendMessageThrowing w
  | _ => handle ev w
  end.

(** [step] with these throws.  At a mount [userId] is still [null] and the
    effect does not reach [collection], so [mount] is as before. *)
Definition stepThrowing (w : World) (ev : Event) : World :=
  match ev with
  | Mount e r => if mounted w then w else mount e r w
  | Unmount => if mounted w then unmount w else w
  | _ => if mounted w then commitThrowing w (handleThrowing ev w) else w
  end.

Definition occur (w : World) (o : Occurrence) : World :=
  match o with
  | Callback ev => stepThrowing w ev
  | FirstRenderThrows _ _ => w
  | RandomUUIDThrows _ => w
  end.

Definition runThrowing (w : World) (os : list Occurrence) : World :=
  foldl occur w os.

Definition startedThrowing (e : Env) (o : Startup) : World :=
  runThrowing initWorld (Callback <$> startupEvents e o).

End Throwing.

(** ** Invariants of the subscription effect *)

(** The part of the world the subscription effect reads and writes. *)
Definition feedPart (w : World) :=
  (env w, mounted w, feed w,
   (listeners (out w), opened (out w), queries (out w), unsubscribed (out w))).

(** Listeners are handed out in order and each is cancelled before the next
    is opened: the cancelled ones followed by the live one, if any, are
    exactly the listeners opened so far. *)
Record Books (w : World) : Prop := {
  books_listeners :
    listeners (out w) = list_to_set (option_list (feed w));
  books_log :
    unsubscribed (out w) ++ option_list (feed w) = seq 0 (opened (out w));
  books_queries_length : length (queries (out w)) = opened (out w);
  books_queries :
    Forall (fun q => q_orderBy q = lit "createdAt" /\ q_direction q = Asc)
      (queries (out w));
  books_unmounted : mounted w = false -> feed w = None
}.

(** The live listener is the one of the current session, and a session
    that can write has one. *)
Record Synced (w : World) : Prop := {
  synced_feed : forall sub, feed w = Some sub ->
    exists d, db (st w) = Some d /\ truthy_opt (userId (st w)) = true
              /\ queries (out w) !! sub = Some (feedQuery (env w) d);
  synced_ready : mounted w = true -> ready (st w) -> is_Some (feed w);
  synced_loading : userId (st w) = None \/ loading (st w) = false
}.

(** ** Sample data *)

Definition two_digits (n : Z) : jsstring :=
  [Z.to_N (48 + n / 10); Z.to_N (48 + n mod 10)].

(** A platform for examples: [toDate] drops the sub-millisecond part and
    the time of day is printed as UTC [hh:mm:ss]. *)
Definition utcPlatform : Platform :=
  {| toDate ts := (seconds ts * 1000 + nanoseconds ts / 1000000)%Z;
     toLocaleTimeString d :=
       let s := ((d / 1000) mod 86400)%Z in
       two_digits (s / 3600) ++ [58%N] ++ two_digits (s / 60 mod 60)
       ++ [58%N] ++ two_digits (s mod 60) |}.

Definition alice : jsstring := lit "alice".
Definition bob : jsstring := lit "bob".

(** Mount, anonymous sign-in, and the observer called with user alice. *)
Definition readyEvents : list Event :=
  [Mount defaultEnv (InitOk 1 2); SignInResolved;
   AuthStateChanged (Some alice) []].

Definition readyWorld : World := @run utcPlatform initWorld readyEvents.

(** The user typed " hi ". *)
Definition typedWorld : World :=
  @step utcPlatform readyWorld (InputChange (lit " hi ")).

(** The user typed a space, a tab and an ideographic space. *)
Definition blankWorld : World :=
  @step utcPlatform readyWorld (InputChange [32; 9; 12288]%N).

Definition at_seconds (s : Z) : option Timestamp :=
  Some {| seconds := s; nanoseconds := 0 |}.

Definition sampleDoc (i : string) (u : jsstring) (t : string)
    (ts : option Timestamp) : Doc :=
  {| doc_id := lit i;
     doc_data := {| doc_text := lit t; doc_uid := u; doc_createdAt := ts |} |}.

(** A snapshot in store order: alice at 00:01:40, bob at 00:02:05. *)
Definition sampleDocs : list Doc :=
  [sampleDoc "m1" alice "hi" (at_seconds 100);
   sampleDoc "m2" bob "hello" (at_seconds 125)].

(** The same documents delivered the other way round. *)
Definition swappedDocs : list Doc := rev sampleDocs.

(** A snapshot whose last document still waits for its server time. *)
Definition pendingDocs : list Doc :=
  sampleDocs ++ [sampleDoc "m3" alice "again" None].

Definition sampleClock (i : nat) : Z := (200000 + Z.of_nat i)%Z.

(** The ready session after [sampleDocs] was delivered. *)
Definition chattingWorld : World :=
  @step utcPlatform readyWorld (SnapshotNext 0 sampleDocs sampleClock).

Definition sampleMessage (i : string) (u : jsstring) (t : string) (d : Z)
    : Message :=
  {| msg_id := lit i; msg_text := lit t; msg_uid := u; msg_createdAt := d |}.

Fixpoint doubleSlash (p : jsstring) : bool :=
  match p with
  | [] => false
  | c :: r =>
      match r with
      | [] => false
      | c' :: _ => ((c =? 47) && (c' =? 47))%N || doubleSlash r
      end
  end.

Fixpoint countSegments (inside : bool) (p : jsstring) : nat :=
  match p with
  | [] => 0
  | c :: r =>
      if (c =? 47)%N then countSegments false r
      else (if inside then 0 else 1) + countSegments true r
  end.

(** A stand-in for the SDK's path check, for examples: a collection path
    has no empty segment inside and an odd number of segments. *)
Definition sampleFirestore : Firestore :=
  {| collectionThrows p :=
       if doubleSlash p || Nat.even (countSegments false p)
       then Some (lit "invalid collection reference")
       else None |}.

(** A page that defines [__app_id] as the empty string. *)
Definition emptyAppEnv : Env :=
  {| env_app_id := Some []; env_initial_auth_token := None |}.

(** Sign-in was rejected; the user typed "hi" all the same. *)
Definition strandedWorld : World :=
  @run utcPlatform initWorld
    [Mount defaultEnv (InitOk 1 2); SignInRejected (lit "offline");
     InputChange (lit "hi")].

(** * Properties *)

Section Properties.
Context `{Platform}.

(** ** Basic facts about the step function *)

Lemma commit_same_deps (before after : World) :
  deps before = deps after -> commit before after = after.
Proof. intros E. unfold commit. by rewrite decide_True. Qed.

Lemma out_feedCleanup_writes (w : World) :
  writes (out (feedCleanup w)) = writes (out w).
Proof. unfold feedCleanup. by destruct (feed w). Qed.

Lemma out_feedEffect_writes (w : World) :
  writes (out (feedEffect w)) = writes (out w).
Proof.
  unfold feedEffect. destruct (db (st w)); [|done].
  by destruct (truthy_opt (userId (st w))).
Qed.

Lemma out_commit_writes (before after : World) :
  writes (out (commit before after)) = writes (out after).
Proof.
  unfold commit. case_decide; [done|].
  by rewrite out_feedEffect_writes, out_feedCleanup_writes.
Qed.

Lemma sendBlocked_false (s : AppState) :
  sendBlocked s = false <->
  trim (newMessage s) <> [] /\ ready s.
Proof.
  unfold sendBlocked, ready.
  rewrite !orb_false_iff, !negb_false_iff, bool_decide_eq_false,
    bool_decide_eq_true.
  tauto.
Qed.

Lemma sendBlocked_blank (s : AppState) :
  trim (newMessage s) = [] -> sendBlocked s = true.
Proof. intros E. unfold sendBlocked. by rewrite bool_decide_true. Qed.

Lemma handleSendMessage_deps (w : World) :
  deps (handleSendMessage w) = deps w.
Proof.
  unfold handleSendMessage. destruct (sendBlocked (st w)); [done|].
  destruct (db (st w)); [|done]. by destruct (userId (st w)).
Qed.

Lemma step_Submit (w : World) :
  mounted w = true -> step w Submit = handleSendMessage w.
Proof.
  intros M. unfold step. rewrite M. simpl.
  apply commit_same_deps. by rewrite handleSendMessage_deps.
Qed.

Lemma handleSendMessage_ready (w : World) (d : nat) (u : jsstring) :
  sendBlocked (st w) = false ->
  db (st w) = Some d -> userId (st w) = Some u ->
  handleSendMessage w =
  with_inflight (S (inflight w))
    (with_out (addDoc (sentRecord (env w) d u (st w))) w).
Proof.
  intros B D U. unfold handleSendMessage. by rewrite B, D, U.
Qed.

(** What a step does to the log of [addDoc] calls: nothing, unless it is a
    submit that passes the guard. *)
Lemma step_writes (w : World) (ev : Event) :
  writes (out (step w ev)) = writes (out w)
  \/ exists d u,
       ev = Submit /\ mounted w = true /\ sendBlocked (st w) = false
       /\ db (st w) = Some d /\ userId (st w) = Some u
       /\ writes (out (step w ev)) =
          writes (out w) ++ [sentRecord (env w) d u (st w)].
Proof.
  destruct (mounted w) eqn:M.
  2:{ left. destruct ev; simpl; rewrite ?M; try done.
      unfold mount. rewrite out_commit_writes.
      destruct r; simpl; done. }
  destruct ev; unfold step; rewrite M; try (left; done);
    rewrite ?out_commit_writes; simpl.
  - left. by destruct (boot w).
  - left. by destruct (boot w).
  - left. by destruct (boot w).
  - left. by case_decide.
  - left. by case_decide.
  - by left.
  - destruct (sendBlocked (st w)) eqn:B.
    + left. unfold handleSendMessage. by rewrite B.
    + apply sendBlocked_false in B as B'. destruct B' as (_ & [d D] & T).
      destruct (userId (st w)) as [u|] eqn:U; [|done].
      right. exists d, u. rewrite (handleSendMessage_ready w d u) by done.
      done.
  - left. by destruct (inflight w).
  - left. by destruct (inflight w).
  - by left.
  - left. unfold unmount. simpl. apply out_feedCleanup_writes.
Qed.

(** ** The subscription effect keeps its books *)

#[local] Arguments seq : simpl never.

Lemma live_set_Some (s : nat) :
  list_to_set (option_list (Some s)) =@{gset nat} {[s]}.
Proof. apply list_to_set_singleton_L. Qed.

Lemma live_set_None : list_to_set (option_list None) =@{gset nat} ∅.
Proof. done. Qed.

Lemma Books_ext (w w' : World) :
  feedPart w = feedPart w' -> Books w -> Books w'.
Proof.
  unfold feedPart. intros E [B1 B2 B3 B4 B5].
  injection E as E1 E2 E3 E4 E5 E6 E7.
  split; rewrite <-?E2, <-?E3, <-?E4, <-?E5, <-?E6, <-?E7; done.
Qed.

Lemma handle_feedPart (ev : Event) (w : World) :
  feedPart (handle ev w) = feedPart w.
Proof.
  destruct ev; simpl; try done.
  - by destruct (boot w).
  - by destruct (boot w).
  - by destruct (boot w).
  - by case_decide.
  - by case_decide.
  - unfold handleSendMessage. destruct (sendBlocked (st w)); [done|].
    destruct (db (st w)); [|done]. by destruct (userId (st w)).
  - by destruct (inflight w).
  - by destruct (inflight w).
Qed.

Lemma st_handleSendMessage (w : World) : st (handleSendMessage w) = st w.
Proof.
  unfold handleSendMessage. destruct (sendBlocked (st w)); [done|].
  destruct (db (st w)); [|done]. by destruct (userId (st w)).
Qed.

Lemma handle_loading (ev : Event) (w : World) :
  userId (st w) = None \/ loading (st w) = false ->
  userId (st (handle ev w)) = None \/ loading (st (handle ev w)) = false.
Proof.
  intros L. destruct ev; simpl; try done.
  - by destruct (boot w).
  - destruct (boot w); try done. by right.
  - destruct (boot w); try done. right. by destruct user.
  - by case_decide.
  - by case_decide.
  - by rewrite st_handleSendMessage.
  - by destruct (inflight w).
  - by destruct (inflight w).
Qed.

Lemma st_feedCleanup (w : World) : st (feedCleanup w) = st w.
Proof. unfold feedCleanup. by destruct (feed w). Qed.

Lemma st_feedEffect (w : World) : st (feedEffect w) = st w.
Proof.
  unfold feedEffect. destruct (db (st w)); [|done].
  by destruct (truthy_opt (userId (st w))).
Qed.

Lemma st_commit (before after : World) : st (commit before after) = st after.
Proof.
  unfold commit. case_decide; [done|].
  by rewrite st_feedEffect, st_feedCleanup.
Qed.

Lemma Books_feedCleanup (w : World) :
  Books w ->
  Books (feedCleanup w) /\ feed (feedCleanup w) = None.
Proof.
  intros B. unfold feedCleanup.
  destruct (feed w) as [sub|] eqn:F; [|done].
  destruct B as [B1 B2 B3 B4 B5]. rewrite F in B1, B2.
  split; [|done]. split; simpl; try done.
  - rewrite B1, live_set_Some. apply difference_diag_L.
  - by rewrite app_nil_r.
Qed.

Lemma Books_feedEffect (w : World) :
  Books w -> feed w = None -> mounted w = true -> Books (feedEffect w).
Proof.
  intros [B1 B2 B3 B4 B5] F M. rewrite F in B1, B2.
  rewrite live_set_None in B1.
  change (option_list None) with (@nil nat) in B2. rewrite app_nil_r in B2.
  assert (Books (with_feed None w)) as B0.
  { split; simpl; rewrite ?app_nil_r; done. }
  unfold feedEffect. destruct (db (st w)) as [d|]; [|done].
  destruct (truthy_opt (userId (st w))); [|done].
  split; simpl.
  - by rewrite B1.
  - by rewrite B2, seq_S.
  - rewrite length_app. simpl. lia.
  - apply Forall_app. split; [done|]. by repeat constructor.
  - by rewrite M.
Qed.

Lemma Synced_resubscribe (w : World) :
  Books w -> feed w = None -> mounted w = true ->
  userId (st w) = None \/ loading (st w) = false ->
  Synced (feedEffect w).
Proof.
  intros [B1 B2 B3 B4 B5] F M L.
  split; [| |by rewrite st_feedEffect].
  - unfold feedEffect. intros sub.
    destruct (db (st w)) as [d|] eqn:D; [|done].
    destruct (truthy_opt (userId (st w))) eqn:T; [|done].
    simpl. intros [= <-]. exists d. rewrite D, T. repeat split.
    rewrite <-B3. by rewrite lookup_app_r, Nat.sub_diag.
  - rewrite st_feedEffect. intros _ [[d D] T]. unfold feedEffect.
    rewrite D, T. by eexists.
Qed.

Lemma mounted_feedCleanup (w : World) : mounted (feedCleanup w) = mounted w.
Proof. unfold feedCleanup. by destruct (feed w). Qed.

(** Committing a callback that left the books alone. *)
Lemma commit_invariant (before after : World) :
  Books before -> Synced before -> mounted before = true ->
  feedPart after = feedPart before ->
  (userId (st after) = None \/ loading (st after) = false) ->
  Books (commit before after) /\ Synced (commit before after).
Proof.
  intros B S M E L. pose proof (Books_ext _ _ (eq_sym E) B) as Ba.
  assert (mounted after = true) as Ma.
  { unfold feedPart in E. injection E as _ -> _ _ _ _ _. done. }
  unfold commit. case_decide as Hd.
  - split; [done|]. unfold deps in Hd. injection Hd as Hdb Hu _.
    unfold feedPart in E. injection E as Ee Em Ef _ _ Eq _.
    destruct S as [S1 S2 S3]. split; [| |done].
    + intros sub. rewrite Ef, <-Hdb, <-Hu, Eq, Ee. apply S1.
    + rewrite Ef. unfold ready. rewrite <-Hdb, <-Hu. intros _. by apply S2.
  - destruct (Books_feedCleanup after Ba) as [Bc Fc].
    split.
    + apply Books_feedEffect; [done..|]. by rewrite mounted_feedCleanup.
    + apply Synced_resubscribe; [done..| |].
      * by rewrite mounted_feedCleanup.
      * by rewrite st_feedCleanup.
Qed.

Lemma Books_initWorld : Books initWorld.
Proof. split; simpl; try done. Qed.

Lemma Synced_initWorld : Synced initWorld.
Proof.
  split; simpl.
  - done.
  - intros _ [[d D] _]. done.
  - by left.
Qed.

Lemma step_invariant (w : World) (ev : Event) :
  Books w /\ Synced w -> Books (step w ev) /\ Synced (step w ev).
Proof.
  intros [B S]. destruct (mounted w) eqn:M.
  - destruct ev; unfold step; rewrite M; try done;
      try (apply commit_invariant;
           [done|done|done|apply handle_feedPart
           |apply handle_loading, S]).
    (* Unmount *)
    destruct (Books_feedCleanup w B) as [[C1 C2 C3 C4 C5] Fc].
    unfold unmount. rewrite Fc in C1, C2.
    split; split; simpl in *; try done. by left.
  - destruct ev; unfold step; rewrite M; try done.
    (* Mount *)
    unfold mount.
    set (w0 := {| env := e; mounted := true; st := initialState;
                  boot := NotStarted; feed := None; inflight := 0;
                  out := out w |}).
    assert (Books w0) as B0.
    { destruct B as [B1 B2 B3 B4 B5]. rewrite (B5 M) in B1, B2.
      split; simpl in *; done. }
    assert (feedEffect w0 = w0) as -> by done.
    assert (Synced w0) as S0.
    { split; simpl; [done| |by left]. intros _ [[d D] _]. done. }
    apply commit_invariant; try done.
    + by destruct r.
    + destruct r; simpl; [by left|by right].
Qed.

(** Every world the component can reach keeps both invariants. *)
Lemma run_invariant (evs : list Event) :
  Books (run initWorld evs) /\ Synced (run initWorld evs).
Proof.
  induction evs as [|ev evs IH] using rev_ind.
  - split; [apply Books_initWorld|apply Synced_initWorld].
  - unfold run in *. rewrite foldl_snoc. by apply step_invariant.
Qed.

(** ** Blank input *)

Lemma trimStart_nil (s : jsstring) :
  trimStart s = [] <-> forallb isWhiteSpace s = true.
Proof.
  induction s as [|c s IH]; simpl; [done|].
  destruct (isWhiteSpace c); simpl; [done|]. split; done.
Qed.

Lemma trimStart_blank_or_head (s : jsstring) :
  trimStart s = []
  \/ exists c r, trimStart s = c :: r /\ isWhiteSpace c = false.
Proof.
  induction s as [|c s IH]; simpl; [by left|].
  destruct (isWhiteSpace c) eqn:E; [done|]. right. by exists c, s.
Qed.

Lemma forallb_rev {A} (f : A -> bool) (l : list A) :
  forallb f (rev l) = forallb f l.
Proof.
  induction l as [|x l IH]; simpl; [done|].
  rewrite forallb_app, IH. simpl. rewrite andb_true_r. apply andb_comm.
Qed.

(** The trimmed form is empty exactly for the empty and the
    whitespace-only strings. *)
Lemma trim_nil (s : jsstring) :
  trim s = [] <-> forallb isWhiteSpace s = true.
Proof.
  unfold trim, trimEnd. rewrite <-trimStart_nil. split.
  - intros E. apply (f_equal (@rev N)) in E. rewrite rev_involutive in E.
    simpl in E. apply trimStart_nil in E. rewrite forallb_rev in E.
    destruct (trimStart_blank_or_head s) as [E'|(c & r & E' & W)]; [done|].
    rewrite E' in E. simpl in E. by rewrite W in E.
  - intros ->. done.
Qed.

(** ** The composer *)

(** C3: when the trimmed input is empty (the input is empty or holds only
    white space), submitting changes nothing at all: no [addDoc] call is
    issued and the whole world, the hook state included, stays as it was. *)
Theorem blank_submit_is_noop (w : World) :
  trim (newMessage (st w)) = [] ->
  step w Submit = w /\ writes (out (step w Submit)) = writes (out w).
Proof.
  intros E. assert (step w Submit = w) as ->; [|done].
  destruct (mounted w) eqn:M.
  - rewrite step_Submit by done. unfold handleSendMessage.
    by rewrite sendBlocked_blank.
  - unfold step. by rewrite M.
Qed.

Lemma step_Submit_ready (w : World) :
  mounted w = true -> trim (newMessage (st w)) <> [] -> ready (st w) ->
  exists d u,
    db (st w) = Some d /\ userId (st w) = Some u /\
    step w Submit =
    with_inflight (S (inflight w))
      (with_out (addDoc (sentRecord (env w) d u (st w))) w).
Proof.
  intros M T R. assert (sendBlocked (st w) = false) as B.
  { by apply sendBlocked_false. }
  destruct R as [[d D] U].
  destruct (userId (st w)) as [u|] eqn:Eu; [|done].
  exists d, u. repeat split; [done|].
  rewrite step_Submit by done. by apply handleSendMessage_ready.
Qed.

(** Every [addDoc] call of a reachable world asks for the server's time. *)
Lemma run_writes_serverTimestamp (evs : list Event) :
  Forall (fun a => new_createdAt (add_data a) = serverTimestamp)
    (writes (out (run initWorld evs))).
Proof.
  induction evs as [|ev evs IH] using rev_ind; [by constructor|].
  unfold run in *. rewrite foldl_snoc.
  destruct (step_writes (foldl step initWorld evs) ev)
    as [->|(d & u & _ & _ & _ & _ & _ & ->)]; [done|].
  apply Forall_app. split; [done|]. by repeat constructor.
Qed.

(** C1: a submit in a mounted, ready session with non-blank input hands
    [addDoc] exactly one record, whose [uid] is the session's [userId] and
    whose [createdAt] is the [serverTimestamp()] sentinel.  In every world
    the component can reach, whatever clock values the events carried, each
    record handed to [addDoc] has that sentinel and never a date computed on
    the client, so its time is the store's to assign; and a step adds a
    record only by a submit, one record, with [uid] the session's [userId]
    at that moment. *)
Theorem write_has_session_author_and_server_time
    (evs : list Event) (ev : Event) (v : World) :
  let w := run initWorld evs in
  (mounted v = true -> trim (newMessage (st v)) <> [] -> ready (st v) ->
   exists d u,
     db (st v) = Some d /\ userId (st v) = Some u
     /\ writes (out (step v Submit)) =
        writes (out v)
        ++ [{| add_db := d;
               add_path := chatCollectionPath (env v);
               add_data := {| new_text := newMessage (st v);
                              new_uid := u;
                              new_createdAt := serverTimestamp |} |}])
  /\ Forall (fun a =>
               new_createdAt (add_data a) = serverTimestamp /\
               forall d, new_createdAt (add_data a) <> clientDate d)
       (writes (out w))
  /\ (writes (out (step w ev)) = writes (out w)
      \/ exists a,
           ev = Submit
           /\ writes (out (step w ev)) = writes (out w) ++ [a]
           /\ userId (st w) = Some (new_uid (add_data a))
           /\ new_createdAt (add_data a) = serverTimestamp).
Proof.
  intros w. split; [|split].
  - intros M T R.
    destruct (step_Submit_ready v M T R) as (d & u & D & U & E).
    exists d, u. split; [done|]. split; [done|]. by rewrite E.
  - eapply Forall_impl; [apply run_writes_serverTimestamp|].
    intros a E. split; [done|]. intros d. by rewrite E.
  - destruct (step_writes w ev) as [E|(d & u & S & _ & _ & _ & U & E)];
      [by left|].
    right. eexists. split; [exact S|]. split; [exact E|]. by split.
Qed.

(** C10: a submit that passes the guard writes the input exactly as typed;
    the guard looks at the trimmed string, the record holds the raw one, so
    leading and trailing white space is stored. *)
Theorem submit_stores_raw_text (w : World) :
  mounted w = true -> trim (newMessage (st w)) <> [] -> ready (st w) ->
  exists a,
    writes (out (step w Submit)) = writes (out w) ++ [a]
    /\ new_text (add_data a) = newMessage (st w)
    /\ (trim (newMessage (st w)) <> newMessage (st w) ->
        new_text (add_data a) <> trim (newMessage (st w))).
Proof.
  intros M T R.
  destruct (step_Submit_ready w M T R) as (d & u & _ & _ & ->).
  eexists. split; [done|]. simpl. split; [done|]. congruence.
Qed.

(** Typing while a write is in flight. *)
Lemma run_typing (w : World) (typed : list jsstring) :
  mounted w = true ->
  let w' := run w (InputChange <$> typed) in
  mounted w' = true /\ inflight w' = inflight w /\ out w' = out w
  /\ newMessage (st w') = default (newMessage (st w)) (last typed).
Proof.
  revert w. induction typed as [|v typed IH] using rev_ind; intros w M.
  - done.
  - simpl. rewrite fmap_app. unfold run. rewrite foldl_app. simpl.
    destruct (IH w M) as (M' & I' & O' & _). unfold run in *.
    set (w1 := foldl step w (InputChange <$> typed)) in *.
    unfold step. rewrite M'. simpl. rewrite commit_same_deps by done.
    rewrite last_snoc. done.
Qed.

(** C4: a submit with non-blank input in a ready session issues one
    [addDoc] and leaves the input alone while the write is pending.  When
    the promise resolves the input buffer becomes empty.  When it rejects,
    the hook state, the buffer included, is exactly what it was (also if
    the user typed in between), the error goes to the console, and no
    further [addDoc] is issued: nothing is retried or queued. *)
Theorem submit_settles_buffer
    (w : World) (typed : list jsstring) (err : Error) :
  mounted w = true -> trim (newMessage (st w)) <> [] -> ready (st w) ->
  let w1 := step w Submit in
  let w2 := run w1 (InputChange <$> typed) in
  length (writes (out w1)) = S (length (writes (out w)))
  /\ st w1 = st w
  /\ newMessage (st (step w2 AddDocResolved)) = []
  /\ st (step w2 (AddDocRejected err)) = st w2
  /\ console (out (step w2 (AddDocRejected err)))
     = console (out w) ++ [ErrorSendingMessage err]
  /\ writes (out (step w2 (AddDocRejected err))) = writes (out w1)
  /\ inflight (step w2 (AddDocRejected err)) = inflight w.
Proof.
  intros M T R w1 w2.
  destruct (step_Submit_ready w M T R) as (d & u & _ & _ & E).
  assert (mounted w1 = true) as M1 by (subst w1; by rewrite E).
  destruct (run_typing w1 typed M1) as (M2 & I2 & O2 & _).
  fold w2 in M2, I2, O2.
  assert (inflight w2 = S (inflight w)) as I.
  { rewrite I2. subst w1. by rewrite E. }
  repeat split.
  - subst w1. rewrite E. simpl. rewrite length_app. simpl. lia.
  - subst w1. by rewrite E.
  - unfold step. rewrite M2. simpl. rewrite I, st_commit. done.
  - unfold step. rewrite M2. simpl. rewrite I, st_commit. done.
  - unfold step. rewrite M2. simpl. rewrite I.
    rewrite commit_same_deps by done. simpl. rewrite O2.
    subst w1. by rewrite E.
  - unfold step. rewrite M2. simpl. rewrite I.
    rewrite commit_same_deps by done. simpl. by rewrite O2.
  - unfold step. rewrite M2. simpl. rewrite I.
    rewrite commit_same_deps by done. simpl. by rewrite I.
Qed.

(** ** The live feed *)

Lemma step_SnapshotNext (w : World) (sub : nat) (docs : list Doc)
    (clock : nat -> Date) :
  mounted w = true -> sub ∈ listeners (out w) ->
  step w (SnapshotNext sub docs clock) = snapshotNext clock docs w.
Proof.
  intros M L. unfold step. rewrite M. simpl. rewrite decide_True by done.
  by apply commit_same_deps.
Qed.

(** C6: a delivered snapshot replaces the message list by one record per
    document, in the snapshot's order, whatever the list held before: the
    list is empty for an empty snapshot; each record takes [id], [text] and
    [uid] from its document and has [createdAt] converted by [toDate], or
    set to the client's current time when the document has no timestamp
    yet.  Nothing else changes. *)
Theorem snapshot_replaces_messages
    (w : World) (sub : nat) (docs : list Doc) (clock : nat -> Date) :
  mounted w = true -> sub ∈ listeners (out w) ->
  let w' := step w (SnapshotNext sub docs clock) in
  length (messages (st w')) = length docs
  /\ (docs = [] -> messages (st w') = [])
  /\ (forall i doc, docs !! i = Some doc ->
        exists m, messages (st w') !! i = Some m
          /\ msg_id m = doc_id doc
          /\ msg_text m = doc_text (doc_data doc)
          /\ msg_uid m = doc_uid (doc_data doc)
          /\ msg_createdAt m =
             match doc_createdAt (doc_data doc) with
             | Some ts => toDate ts
             | None => clock i
             end)
  /\ st w' = setMessages (messages (st w')) (st w)
  /\ out w' = out w.
Proof.
  intros M L w'. subst w'. rewrite step_SnapshotNext by done.
  unfold snapshotNext, fetchedMessages. simpl. repeat split.
  - apply length_imap.
  - by intros ->.
  - intros i doc D. exists (toMessage (clock i) doc).
    rewrite list_lookup_imap, D. done.
Qed.

(** C8: when the subscription reports an error the callback only writes
    to the console: the hook state, the message list in it, and so the
    screen, stay as they were; the component neither cancels the listener
    nor opens another, and writes nothing to the store. *)
Theorem snapshot_error_only_logged (w : World) (sub : nat) (err : Error) :
  mounted w = true -> sub ∈ listeners (out w) ->
  let w' := step w (SnapshotError sub err) in
  st w' = st w
  /\ messages (st w') = messages (st w)
  /\ render (st w') = render (st w)
  /\ console (out w') = console (out w) ++ [ErrorFetchingMessages err]
  /\ listeners (out w') = listeners (out w)
  /\ opened (out w') = opened (out w)
  /\ unsubscribed (out w') = unsubscribed (out w)
  /\ writes (out w') = writes (out w).
Proof.
  intros M L w'. subst w'. unfold step. rewrite M. simpl.
  rewrite decide_True by done. rewrite commit_same_deps by done. done.
Qed.

(** ** Render *)

(** C5: on the chat screen every message has its bubble, at the same
    position.  A message whose [uid] is the session's [userId] gets the
    reversed row (right-aligned), the indigo bubble and no sender label;
    any other message gets the plain row (left-aligned), the neutral bubble
    and its sender's uid as label. *)
Theorem own_message_styling (s : AppState) (i : nat) (msg : Message) :
  loading s = false -> messages s !! i = Some msg ->
  exists b,
    bubbles (render s) !! i = Some b
    /\ length (bubbles (render s)) = length (messages s)
    /\ b_key b = msg_id msg /\ b_text b = msg_text msg
    /\ (userId s = Some (msg_uid msg) ->
        b_row b = "flex-row-reverse"
        /\ b_bubble b = "bg-indigo-500 text-white rounded-br-none"
        /\ b_timeClass b = "text-indigo-200"
        /\ b_label b = None)
    /\ (userId s <> Some (msg_uid msg) ->
        b_row b = "flex-row"
        /\ b_bubble b =
           "bg-white dark:bg-gray-700 text-gray-800 dark:text-gray-200 rounded-bl-none"
        /\ b_timeClass b = "text-gray-400 dark:text-gray-500"
        /\ b_label b = Some (msg_uid msg)).
Proof.
  intros L M. exists (renderMessage (userId s) msg).
  unfold render, renderThread. rewrite L. simpl.
  destruct (messages s) as [|m0 ms] eqn:E; [done|]. simpl bubbles.
  split; [by rewrite list_lookup_fmap, M|].
  split; [by rewrite length_fmap|].
  unfold renderMessage. simpl. repeat split.
  - by rewrite bool_decide_true.
  - by rewrite bool_decide_true.
  - by rewrite bool_decide_true.
  - by rewrite bool_decide_true.
  - by rewrite bool_decide_false.
  - by rewrite bool_decide_false.
  - by rewrite bool_decide_false.
  - by rewrite bool_decide_false.
Qed.

Lemma bubbles_render (s : AppState) :
  loading s = false ->
  bubbles (render s) = renderMessage (userId s) <$> messages s.
Proof.
  intros L. unfold render, renderThread. rewrite L. simpl.
  by destruct (messages s).
Qed.

(** What is known of a live listener in a reachable world. *)
Lemma live_listener (evs : list Event) (sub : nat) :
  let w := run initWorld evs in
  sub ∈ listeners (out w) ->
  feed w = Some sub /\ mounted w = true /\ loading (st w) = false
  /\ exists d, db (st w) = Some d
               /\ queries (out w) !! sub = Some (feedQuery (env w) d).
Proof.
  intros w L. destruct (run_invariant evs) as [B S]. fold w in B, S.
  destruct B as [B1 _ _ _ B5]. destruct S as [S1 _ S3].
  rewrite B1 in L. destruct (feed w) as [s|] eqn:F.
  2:{ rewrite live_set_None in L. by apply not_elem_of_empty in L. }
  rewrite live_set_Some in L. apply elem_of_singleton in L as ->.
  destruct (S1 s eq_refl) as (d & D & T & Q).
  split; [done|]. split.
  { destruct (mounted w); [done|]. by specialize (B5 eq_refl). }
  split.
  { destruct S3 as [U|]; [|done]. by rewrite U in T. }
  by exists d.
Qed.

(** C2: the listener that delivers a snapshot was opened on the chat
    collection with [orderBy('createdAt')], ascending; the thread on screen
    shows the delivered documents one bubble each, in exactly the order of
    the snapshot, sorted or not.  Hence, when the store delivers the
    documents in ascending order of the timestamps it assigned, a bubble
    higher in the thread never shows a later timestamp than one below. *)
Theorem thread_follows_snapshot_order
    (evs : list Event) (sub : nat) (docs : list Doc) (clock : nat -> Date) :
  sub ∈ listeners (out (run initWorld evs)) ->
  let w := run initWorld evs in
  let thread := bubbles (render (st (step w (SnapshotNext sub docs clock)))) in
  (exists q, queries (out w) !! sub = Some q
             /\ q_path q = chatCollectionPath (env w)
             /\ q_orderBy q = lit "createdAt" /\ q_direction q = Asc)
  /\ render (st (step w (SnapshotNext sub docs clock))) <> LoadingChat
  /\ b_key <$> thread = doc_id <$> docs
  /\ (ascending docs ->
      forall i j bi bj, i <= j ->
        thread !! i = Some bi -> thread !! j = Some bj ->
        exists di dj ti tj,
          docs !! i = Some di /\ docs !! j = Some dj
          /\ b_key bi = doc_id di /\ b_key bj = doc_id dj
          /\ b_time bi = toLocaleTimeString (toDate ti)
          /\ b_time bj = toLocaleTimeString (toDate tj)
          /\ doc_createdAt (doc_data di) = Some ti
          /\ doc_createdAt (doc_data dj) = Some tj
          /\ ts_le ti tj).
Proof.
  intros L w thread.
  destruct (live_listener evs sub L) as (F & M & Ld & d & D & Q).
  fold w in F, M, Ld, D, Q.
  assert (thread =
          renderMessage (userId (st w)) <$> fetchedMessages clock docs) as E.
  { subst thread. rewrite step_SnapshotNext by done.
    by rewrite bubbles_render. }
  split; [by exists (feedQuery (env w) d)|]. split.
  { rewrite step_SnapshotNext by done. unfold render. simpl.
    by rewrite Ld. }
  assert (forall i b, thread !! i = Some b ->
            exists doc, docs !! i = Some doc /\
              b = renderMessage (userId (st w)) (toMessage (clock i) doc))
    as Look.
  { intros i b. rewrite E, list_lookup_fmap. unfold fetchedMessages.
    rewrite list_lookup_imap. destruct (docs !! i) as [doc|]; [|done].
    simpl. intros [= <-]. by exists doc. }
  split.
  - rewrite E. unfold fetchedMessages. apply list_eq. intros i.
    rewrite !list_lookup_fmap, list_lookup_imap.
    by destruct (docs !! i).
  - intros A i j bi bj Hij Bi Bj.
    destruct (Look i bi Bi) as (di & Di & ->).
    destruct (Look j bj Bj) as (dj & Dj & ->).
    destruct (A i j di dj Hij Di Dj) as (ti & tj & Ti & Tj & Le).
    exists di, dj, ti, tj. simpl. rewrite Ti, Tj. done.
Qed.

(** ** Start-up *)

Lemma commit_changed (before after : World) :
  deps before <> deps after ->
  commit before after = feedEffect (feedCleanup after).
Proof. intros E. unfold commit. by rewrite decide_False. Qed.

Lemma submit_without_identity (w : World) :
  userId (st w) = None -> step w Submit = w.
Proof.
  intros U. destruct (mounted w) eqn:M.
  - rewrite step_Submit by done. unfold handleSendMessage, sendBlocked.
    rewrite U. simpl. by rewrite orb_true_r.
  - unfold step. by rewrite M.
Qed.

Lemma started_InitFails (e : Env) (err : Error) :
  started e (InitFails err) =
  {| env := e; mounted := true; st := setLoading false initialState;
     boot := Caught; feed := None; inflight := 0;
     out := consoleError (ErrorSettingUpFirebase err) noCalls |}.
Proof.
  unfold started, run. simpl. unfold mount. simpl.
  by rewrite commit_same_deps.
Qed.

Lemma mount_InitOk (e : Env) (firestore firebaseAuth : nat) :
  step initWorld (Mount e (InitOk firestore firebaseAuth)) =
  {| env := e; mounted := true;
     st := setAuth (Some firebaseAuth) (setDb (Some firestore) initialState);
     boot := SigningIn; feed := None; inflight := 0;
     out := signIn (signInCall e firebaseAuth) noCalls |}.
Proof.
  simpl. unfold mount. simpl. by rewrite commit_changed.
Qed.

Lemma started_SignInFails (e : Env) (firestore firebaseAuth : nat)
    (err : Error) :
  started e (SignInFails firestore firebaseAuth err) =
  {| env := e; mounted := true;
     st := setLoading false
             (setAuth (Some firebaseAuth)
                (setDb (Some firestore) initialState));
     boot := Caught; feed := None; inflight := 0;
     out := consoleError (ErrorSettingUpFirebase err)
              (signIn (signInCall e firebaseAuth) noCalls) |}.
Proof.
  unfold started, run, startupEvents, foldl. rewrite mount_InitOk.
  simpl. by rewrite commit_same_deps.
Qed.

Lemma started_observed (e : Env) (firestore firebaseAuth : nat)
    (user : option jsstring) (uuid : jsstring) :
  loading
    (st (run initWorld
           [Mount e (InitOk firestore firebaseAuth); SignInResolved;
            AuthStateChanged user uuid])) = false.
Proof.
  unfold run, foldl. rewrite mount_InitOk. simpl.
  rewrite commit_same_deps by done. simpl. rewrite st_commit.
  simpl. by destruct user.
Qed.

Lemma degraded_without_identity (w : World) :
  mounted w = true -> feed w = None -> listeners (out w) = ∅ ->
  loading (st w) = false -> userId (st w) = None -> messages (st w) = [] ->
  degraded w.
Proof.
  intros M F L Ld U Ms. unfold degraded. repeat split; try done.
  - eexists. unfold render. rewrite Ld. split; [done|]. simpl.
    unfold renderThread. by rewrite U, Ms.
  - intros text. apply submit_without_identity.
    unfold step. rewrite M. simpl. by rewrite st_commit.
Qed.

Lemma boot_commit (before after : World) :
  boot (commit before after) = boot after
  /\ mounted (commit before after) = mounted after.
Proof.
  unfold commit. case_decide; [done|]. unfold feedEffect, feedCleanup.
  destruct (feed after); simpl; destruct (db (st after)); try done;
    by destruct (truthy_opt (userId (st after))).
Qed.

Lemma step_awaiting (w : World) (ev : Event) :
  mounted w = false \/ loading (st w) = false \/ awaitingSdk w ->
  mounted (step w ev) = false \/ loading (st (step w ev)) = false
  \/ awaitingSdk (step w ev).
Proof.
  unfold awaitingSdk. intros P. destruct (mounted w) eqn:M.
  - destruct P as [P|P]; [done|].
    destruct ev; unfold step; rewrite M; try (by right);
      try (by left); right;
      match goal with
      | |- context [commit ?a ?b] =>
          destruct (boot_commit a b) as [-> _]; rewrite (st_commit a b)
      end; simpl.
    + destruct (boot w) eqn:Eb; simpl; rewrite ?Eb; tauto.
    + destruct (boot w) eqn:Eb; simpl; rewrite ?Eb; tauto.
    + destruct (boot w) eqn:Eb; simpl; rewrite ?Eb; try tauto;
        left; by destruct user.
    + case_decide; simpl; tauto.
    + case_decide; simpl; tauto.
    + tauto.
    + rewrite st_handleSendMessage.
      unfold handleSendMessage. destruct (sendBlocked (st w)); [tauto|].
      destruct (db (st w)); [|tauto]. destruct (userId (st w)); simpl; tauto.
    + destruct (inflight w); simpl; tauto.
    + destruct (inflight w); simpl; tauto.
    + tauto.
  - destruct ev; unfold step; rewrite M; try (by left). right.
    unfold mount.
    match goal with
    | |- context [commit ?a ?b] =>
        destruct (boot_commit a b) as [-> _]; rewrite (st_commit a b)
    end.
    destruct r; simpl; tauto.
Qed.

(** A mounted component has [loading] set only while the sign-in promise
    is pending or the auth observer has not been called yet. *)
Lemma run_awaiting (evs : list Event) :
  let w := run initWorld evs in
  mounted w = false \/ loading (st w) = false \/ awaitingSdk w.
Proof.
  induction evs as [|ev evs IH] using rev_ind; [by left|].
  unfold run in *. rewrite foldl_snoc. by apply step_awaiting.
Qed.


(** ** One subscription at a time *)

Lemma count_in_seq (sub a n : nat) :
  length (filter (fun x => x = sub) (seq a n)) =
  if bool_decide (a <= sub < a + n) then 1 else 0.
Proof.
  revert a. induction n as [|n IH]; intros a.
  - rewrite bool_decide_false by lia. done.
  - change (seq a (S n)) with (a :: seq (S a) n).
    rewrite filter_cons. case_decide as E.
    + subst a. simpl. rewrite IH.
      rewrite bool_decide_false by lia. rewrite bool_decide_true by lia.
      done.
    + rewrite IH. destruct (decide (S a <= sub < S a + n)).
      * rewrite !bool_decide_true by lia. done.
      * rewrite !bool_decide_false by lia. done.
Qed.

(** C9: in every reachable world the feed has one live listener when the
    component is mounted with a ready session and none otherwise, so never
    more than one; every listener opened and no longer live has had its
    [unsubscribe] called exactly once, a live one never; and unmounting
    cancels the live listener, once, leaving none behind, over any number
    of mount and unmount cycles. *)
Theorem one_feed_subscription (evs : list Event) (sub : nat) :
  let w := run initWorld evs in
  size (listeners (out w)) <= 1
  /\ size (listeners (out w)) =
     (if bool_decide (mounted w = true /\ ready (st w)) then 1 else 0)
  /\ cancellations sub (out w) =
     (if bool_decide (sub < opened (out w) /\ sub ∉ listeners (out w))
      then 1 else 0)
  /\ listeners (out (step w Unmount)) = ∅
  /\ unsubscribed (out (step w Unmount)) =
     unsubscribed (out w) ++ elements (listeners (out w))
  /\ cancellations sub (out (step w Unmount)) =
     (if bool_decide (sub < opened (out w)) then 1 else 0).
Proof.
  intros w. destruct (run_invariant evs) as [B S]. fold w in B, S.
  destruct (run_invariant (evs ++ [Unmount])) as [[U1 U2 _ _ U5] _].
  unfold run in U1, U2, U5. rewrite foldl_snoc in U1, U2, U5.
  fold (run initWorld evs) in U1, U2, U5. fold w in U1, U2, U5.
  assert (opened (out (step w Unmount)) = opened (out w)) as Eo.
  { unfold step. destruct (mounted w); [|done]. unfold unmount, feedCleanup.
    by destruct (feed w). }
  assert (mounted (step w Unmount) = false) as Mu.
  { unfold step. by destruct (mounted w) eqn:M. }
  rewrite (U5 Mu) in U1, U2. rewrite live_set_None in U1.
  change (option_list None) with (@nil nat) in U2. rewrite app_nil_r in U2.
  destruct B as [B1 B2 B3 B4 B5]. destruct S as [S1 S2 S3].
  assert (size (listeners (out w)) =
          if bool_decide (mounted w = true /\ ready (st w)) then 1 else 0)
    as Sz.
  { rewrite B1. destruct (feed w) as [s|] eqn:F.
    - destruct (S1 s eq_refl) as (d & D & T & _).
      rewrite bool_decide_true.
      + rewrite live_set_Some. apply size_singleton.
      + split.
        * destruct (mounted w); [done|]. by specialize (B5 eq_refl).
        * split; [by exists d|done].
    - rewrite bool_decide_false; [apply size_empty|].
      intros [M R]. by destruct (S2 M R). }
  split; [rewrite Sz; case_bool_decide; lia|]. split; [done|].
  split; [|split; [done|split]].
  - unfold cancellations. rewrite B1. destruct (feed w) as [s|] eqn:F.
    + change (option_list (Some s)) with [s] in B2.
      destruct (opened (out w)) as [|n] eqn:En.
      { by destruct (unsubscribed (out w)). }
      rewrite seq_S in B2. apply app_inj_tail in B2 as [-> ->].
      rewrite count_in_seq, live_set_Some.
      destruct (decide (sub < n)).
      * rewrite !bool_decide_true; [done| |lia].
        split; [lia|]. rewrite elem_of_singleton. lia.
      * rewrite !bool_decide_false; [done| |lia].
        rewrite elem_of_singleton. lia.
    + change (option_list None) with (@nil nat) in B2.
      rewrite app_nil_r in B2. rewrite B2, count_in_seq, live_set_None.
      destruct (decide (sub < opened (out w))).
      * rewrite !bool_decide_true; [done| |lia].
        split; [done|]. apply not_elem_of_empty.
      * rewrite !bool_decide_false; [done| |lia]. tauto.
  - unfold step. destruct (mounted w) eqn:M.
    + unfold unmount, feedCleanup. rewrite B1.
      destruct (feed w) as [s|].
      * by rewrite live_set_Some, elements_singleton.
      * by rewrite live_set_None, elements_empty, app_nil_r.
    + rewrite B1, (B5 eq_refl), live_set_None.
      by rewrite elements_empty, app_nil_r.
  - unfold cancellations. rewrite U2, Eo, count_in_seq.
    destruct (decide (sub < opened (out w))).
    + rewrite !bool_decide_true; [done|lia..].
    + rewrite !bool_decide_false; [done|lia..].
Qed.

End Properties.

(** * Further properties of the component *)

Section Component.
Context `{Platform}.

(** ** What a step leaves alone *)

Lemma commit_logs (before after : World) :
  signIns (out (commit before after)) = signIns (out after)
  /\ console (out (commit before after)) = console (out after).
Proof.
  unfold commit. case_decide; [done|]. unfold feedEffect, feedCleanup.
  destruct (feed after); simpl; destruct (db (st after)); try done;
    by destruct (truthy_opt (userId (st after))).
Qed.

Lemma step_mounted_event (w : World) (ev : Event) :
  mounted w = true ->
  (forall e r, ev <> Mount e r) -> ev <> Unmount ->
  step w ev = commit w (handle ev w).
Proof.
  intros M NM NU. unfold step. rewrite M. destruct ev; try done.
  by destruct (NM e r).
Qed.

Lemma step_unmounted (w : World) (ev : Event) :
  mounted w = false -> (forall e r, ev <> Mount e r) -> step w ev = w.
Proof.
  intros M NM. unfold step. rewrite M. destruct ev; try done.
  by destruct (NM e r).
Qed.

(** ** The composer *)

(** X1: a submit in a session that cannot write ([db] still [null], or
    [userId] [null] or empty) does nothing, whatever text was typed. *)
Theorem submit_without_session_is_noop (w : World) :
  ~ ready (st w) -> step w Submit = w.
Proof.
  intros NR. destruct (mounted w) eqn:M.
  - rewrite step_Submit by done. unfold handleSendMessage.
    destruct (sendBlocked (st w)) eqn:B; [done|].
    apply sendBlocked_false in B as [_ R]. done.
  - unfold step. by rewrite M.
Qed.

(** X2: the input is not cleared and the form not locked while a write is
    pending, so submitting twice before the first write settles sends the
    same record twice. *)
Theorem double_submit_sends_twice (w : World) :
  mounted w = true -> trim (newMessage (st w)) <> [] -> ready (st w) ->
  exists a,
    writes (out (run w [Submit; Submit])) = writes (out w) ++ [a; a]
    /\ new_text (add_data a) = newMessage (st w)
    /\ userId (st w) = Some (new_uid (add_data a))
    /\ newMessage (st (run w [Submit; Submit])) = newMessage (st w).
Proof.
  intros M T R.
  destruct (step_Submit_ready w M T R) as (d & u & D & U & E).
  set (w1 := step w Submit).
  assert (st w1 = st w /\ mounted w1 = true /\ env w1 = env w) as (S1 & M1 & E1).
  { subst w1. by rewrite E. }
  assert (trim (newMessage (st w1)) <> []) as T1 by (by rewrite S1).
  assert (ready (st w1)) as R1 by (by rewrite S1).
  destruct (step_Submit_ready w1 M1 T1 R1) as (d' & u' & D' & U' & E').
  rewrite S1 in D', U'. rewrite D in D'. rewrite U in U'.
  injection D' as <-. injection U' as <-.
  exists (sentRecord (env w) d u (st w)).
  change (run w [Submit; Submit]) with (step w1 Submit).
  rewrite E'. simpl. rewrite S1, E1. subst w1. rewrite E. simpl.
  rewrite U. rewrite <-app_assoc. done.
Qed.

(** X3: whenever a submit issues a write, the component holds exactly one
    feed listener, and that listener's query is on the same database
    handle and the same collection path as the write: what is sent goes to
    the collection being watched. *)
Theorem write_targets_subscribed_collection (evs : list Event) (a : AddDoc) :
  writes (out (step (run initWorld evs) Submit))
    = writes (out (run initWorld evs)) ++ [a] ->
  exists sub q,
    listeners (out (run initWorld evs)) = {[sub]}
    /\ queries (out (run initWorld evs)) !! sub = Some q
    /\ q_db q = add_db a /\ q_path q = add_path a.
Proof.
  set (w := run initWorld evs). intros W.
  destruct (step_writes w Submit) as [E|(d & u & _ & M & B & D & U & E)].
  { rewrite E in W. apply (f_equal length) in W.
    rewrite length_app in W. simpl in W. lia. }
  rewrite E in W. apply app_inv_head in W. injection W as <-.
  destruct (run_invariant evs) as [[B1 _ _ _ _] [S1 S2 _]].
  fold w in B1, S1, S2. apply sendBlocked_false in B as [_ R].
  destruct (S2 M R) as [sub F]. destruct (S1 sub F) as (d' & D' & _ & Q).
  rewrite D in D'. injection D' as <-.
  exists sub, (feedQuery (env w) d). rewrite B1, F, live_set_Some. done.
Qed.

(** X4: two environments give the same chat collection path exactly when
    they give the same application id: distinct ids never share a
    collection. *)
Theorem collection_path_determines_app (e1 e2 : Env) :
  chatCollectionPath e1 = chatCollectionPath e2 <-> appId e1 = appId e2.
Proof.
  unfold chatCollectionPath. split.
  - intros E. apply app_inv_head in E. by apply app_inv_tail in E.
  - by intros ->.
Qed.

(** X5: on the chat screen the text input shows the buffer, and the Send
    button is disabled exactly when the buffer is empty or holds only white
    space.  Submitting with the button disabled does nothing; with the
    button enabled and a session that can write, it issues one write. *)
Theorem send_button_follows_guard (w : World) :
  loading (st w) = false ->
  exists c,
    render (st w) = ChatUI c
    /\ c_input c = newMessage (st w)
    /\ (c_sendDisabled c = true <->
        forallb isWhiteSpace (newMessage (st w)) = true)
    /\ (c_sendDisabled c = true -> step w Submit = w)
    /\ (c_sendDisabled c = false -> mounted w = true -> ready (st w) ->
        length (writes (out (step w Submit))) = S (length (writes (out w)))).
Proof.
  intros L. unfold render. rewrite L. eexists. split; [done|].
  cbn [c_input c_sendDisabled].
  split; [done|]. split; [|split].
  - by rewrite bool_decide_eq_true, trim_nil.
  - rewrite bool_decide_eq_true. intros E. destruct (mounted w) eqn:M.
    + rewrite step_Submit by done. unfold handleSendMessage.
      by rewrite sendBlocked_blank.
    + unfold step. by rewrite M.
  - rewrite bool_decide_eq_false. intros T M R.
    destruct (step_Submit_ready w M T R) as (d & u & _ & _ & ->).
    simpl. rewrite length_app. simpl. lia.
Qed.

(** ** What each event can change *)

Lemma st_mount (e : Env) (r : InitResult) (w : World) :
  st (mount e r w) =
  match r with
  | InitOk firestore firebaseAuth =>
      setAuth (Some firebaseAuth) (setDb (Some firestore) initialState)
  | InitThrows _ => setLoading false initialState
  end.
Proof. unfold mount. rewrite st_commit. by destruct r. Qed.

Lemma logs_mount (e : Env) (r : InitResult) (w : World) :
  signIns (out (mount e r w)) =
    match r with
    | InitOk _ firebaseAuth => signIns (out w) ++ [signInCall e firebaseAuth]
    | InitThrows _ => signIns (out w)
    end
  /\ console (out (mount e r w)) =
    match r with
    | InitOk _ _ => console (out w)
    | InitThrows err => console (out w) ++ [ErrorSettingUpFirebase err]
    end.
Proof.
  unfold mount.
  match goal with
  | |- context [commit ?a ?b] => destruct (commit_logs a b) as [-> ->]
  end.
  by destruct r.
Qed.

Lemma logs_unmount (w : World) :
  signIns (out (unmount w)) = signIns (out w)
  /\ console (out (unmount w)) = console (out w).
Proof. unfold unmount, feedCleanup. by destruct (feed w). Qed.

(** X6: the message list is set only by a delivered snapshot, and is empty
    after a mount or an unmount; every other event leaves it as it is.  In
    particular a submit never adds the sent message locally: it appears
    only when the store delivers it. *)
Theorem messages_change_only_by_snapshot (w : World) (ev : Event) :
  messages (st (step w ev)) = messages (st w)
  \/ (exists sub docs clock,
        ev = SnapshotNext sub docs clock /\ sub ∈ listeners (out w)
        /\ messages (st (step w ev)) = fetchedMessages clock docs)
  \/ (((exists e r, ev = Mount e r) \/ ev = Unmount)
      /\ messages (st (step w ev)) = []).
Proof.
  destruct (mounted w) eqn:M.
  - destruct ev; unfold step; rewrite M; try (by left);
      rewrite ?st_commit; simpl.
    + left. by destruct (boot w).
    + left. by destruct (boot w).
    + left. destruct (boot w); try done. by destruct user.
    + case_decide; [|by left]. right. left. by exists sub, docs, clock.
    + left. by case_decide.
    + by left.
    + left. by rewrite st_handleSendMessage.
    + left. by destruct (inflight w).
    + left. by destruct (inflight w).
    + by left.
    + right. right. split; [by right|done].
  - destruct ev; unfold step; rewrite M; try (by left).
    right. right. split; [left; by exists e, r|].
    rewrite st_mount. by destruct r.
Qed.

Lemma step_keeps_loading_off (w : World) (ev : Event) :
  mounted w = true -> loading (st w) = false -> ev <> Unmount ->
  mounted (step w ev) = true /\ loading (st (step w ev)) = false.
Proof.
  intros M L NU.
  destruct ev; unfold step; rewrite M; try done;
    match goal with
    | |- context [commit ?a ?b] =>
        destruct (boot_commit a b) as [_ ->]; rewrite (st_commit a b)
    end; simpl.
  - by destruct (boot w).
  - by destruct (boot w).
  - destruct (boot w); try done. by destruct user.
  - by case_decide.
  - by case_decide.
  - done.
  - rewrite st_handleSendMessage. split; [|done].
    unfold handleSendMessage. destruct (sendBlocked (st w)); [done|].
    destruct (db (st w)); [|done]. by destruct (userId (st w)).
  - by destruct (inflight w).
  - by destruct (inflight w).
  - done.
Qed.

(** X7: [loading] is only ever set to [false]: once the chat screen is
    shown, no sequence of events brings the loading screen back for as long
    as the component stays mounted. *)
Theorem loading_never_returns (w : World) (evs : list Event) :
  mounted w = true -> loading (st w) = false -> Unmount ∉ evs ->
  mounted (run w evs) = true
  /\ loading (st (run w evs)) = false
  /\ render (st (run w evs)) <> LoadingChat.
Proof.
  revert w. induction evs as [|ev evs IH]; intros w M L NU.
  - repeat split; try done. unfold render. simpl. by rewrite L.
  - apply not_elem_of_cons in NU as [NU1 NU2].
    destruct (step_keeps_loading_off w ev M L) as [M' L']; [done|].
    apply (IH (step w ev) M' L' NU2).
Qed.

(** X8: the database handle is set at mount and kept until the unmount;
    [userId] is set only by the auth observer, to the reported user's uid
    or, when no user is reported, to the locally generated id, and is
    [null] after a mount or an unmount. *)
Theorem identity_changes_only_by_observer (w : World) (ev : Event) :
  (db (st (step w ev)) = db (st w)
   \/ (exists e r, ev = Mount e r) \/ ev = Unmount)
  /\ (userId (st (step w ev)) = userId (st w)
      \/ (exists uid uuid,
            ev = AuthStateChanged (Some uid) uuid
            /\ userId (st (step w ev)) = Some uid)
      \/ (exists uuid,
            ev = AuthStateChanged None uuid
            /\ userId (st (step w ev)) = Some uuid)
      \/ (((exists e r, ev = Mount e r) \/ ev = Unmount)
          /\ userId (st (step w ev)) = None)).
Proof.
  destruct (mounted w) eqn:M.
  - destruct ev; unfold step; rewrite M; try (split; by left);
      rewrite ?st_commit; simpl.
    + split; left; by destruct (boot w).
    + split; left; by destruct (boot w).
    + destruct (boot w); try (split; by left). split.
      * left. by destruct user.
      * right. destruct user as [uid|]; [left|right; left]; eauto.
    + split; left; by case_decide.
    + split; left; by case_decide.
    + split; by left.
    + rewrite st_handleSendMessage. split; by left.
    + split; left; by destruct (inflight w).
    + split; left; by destruct (inflight w).
    + split; by left.
    + split; [by right; right|]. right. right. right. split; [by right|done].
  - destruct ev; unfold step; rewrite M; try (split; by left).
    split; [right; left; eauto|]. right. right. right.
    split; [left; eauto|]. rewrite st_mount. by destruct r.
Qed.

(** X9: a sign-in is requested exactly once per mount, when initialisation
    succeeds, and by no other event: nothing retries it.  The request
    carries the custom token exactly when the page supplied a non-empty
    one, and is anonymous otherwise. *)
Theorem sign_in_once_per_mount (w : World) (ev : Event) :
  (signIns (out (step w ev)) = signIns (out w)
   \/ exists e firestore firebaseAuth,
        ev = Mount e (InitOk firestore firebaseAuth) /\ mounted w = false
        /\ signIns (out (step w ev)) =
           signIns (out w) ++ [signInCall e firebaseAuth])
  /\ (forall e firestore firebaseAuth,
        signIns (out (step (unmount w)
                        (Mount e (InitOk firestore firebaseAuth)))) =
        signIns (out w) ++ [signInCall e firebaseAuth])
  /\ (forall e firebaseAuth token,
        signInCall e firebaseAuth = signInWithCustomToken firebaseAuth token
        <-> env_initial_auth_token e = Some token /\ token <> []).
Proof.
  split; [|split].
  - destruct (mounted w) eqn:M.
    + destruct ev; unfold step; rewrite M; try (by left);
        try (match goal with
             | |- context [commit ?a ?b] =>
                 destruct (commit_logs a b) as [-> _]
             end); simpl; left.
      * by destruct (boot w).
      * by destruct (boot w).
      * by destruct (boot w).
      * by case_decide.
      * by case_decide.
      * done.
      * unfold handleSendMessage. destruct (sendBlocked (st w)); [done|].
        destruct (db (st w)); [|done]. by destruct (userId (st w)).
      * by destruct (inflight w).
      * by destruct (inflight w).
      * done.
      * apply logs_unmount.
    + destruct ev; unfold step; rewrite M; try (by left).
      destruct (logs_mount e r w) as [-> _]. destruct r; [|by left].
      right. by exists e, firestore, firebaseAuth.
  - intros e firestore firebaseAuth. unfold step.
    change (mounted (unmount w)) with false. cbv iota.
    destruct (logs_mount e (InitOk firestore firebaseAuth) (unmount w))
      as [-> _].
    by destruct (logs_unmount w) as [-> _].
  - intros e firebaseAuth token. unfold signInCall.
    destruct (env_initial_auth_token e) as [[|c t]|]; simpl; split;
      try done; try (by intros [? ?]).
    + intros [[= <-] N]. done.
    + intros [= <-]. done.
    + by intros [[= <-] _].
Qed.

(** X10: the console gets an entry only from the three [catch] / error
    sites, one entry per failure, carrying that failure's error: a failed
    start-up, a feed error, a rejected write.  Nothing else is logged. *)
Theorem console_only_on_failures (w : World) (ev : Event) :
  console (out (step w ev)) = console (out w)
  \/ exists entry,
       console (out (step w ev)) = console (out w) ++ [entry]
       /\ match ev, entry with
          | Mount _ (InitThrows e), ErrorSettingUpFirebase e' => e = e'
          | SignInRejected e, ErrorSettingUpFirebase e' => e = e'
          | SnapshotError _ e, ErrorFetchingMessages e' => e = e'
          | AddDocRejected e, ErrorSendingMessage e' => e = e'
          | _, _ => False
          end.
Proof.
  destruct (mounted w) eqn:M.
  - destruct ev; unfold step; rewrite M; try (by left);
      try (match goal with
           | |- context [commit ?a ?b] =>
               destruct (commit_logs a b) as [_ ->]
           end); simpl.
    + left. by destruct (boot w).
    + destruct (boot w); try (by left). right. by eexists.
    + left. by destruct (boot w).
    + left. by case_decide.
    + case_decide; [|by left]. right. by eexists.
    + by left.
    + left. unfold handleSendMessage. destruct (sendBlocked (st w)); [done|].
      destruct (db (st w)); [|done]. by destruct (userId (st w)).
    + left. by destruct (inflight w).
    + destruct (inflight w); [by left|]. right. by eexists.
    + by left.
    + left. apply logs_unmount.
  - destruct ev; unfold step; rewrite M; try (by left).
    destruct (logs_mount e r w) as [_ ->]. destruct r; [by left|].
    right. by eexists.
Qed.

(** ** Dark mode *)

Lemma step_ToggleDarkMode (w : World) :
  step w ToggleDarkMode = if mounted w then toggleDarkMode w else w.
Proof.
  unfold step. destruct (mounted w); [|done]. by apply commit_same_deps.
Qed.

(** X11: toggling dark mode flips [darkMode] and nothing else: the thread,
    the feed listener and the logs of SDK calls are untouched, and a second
    toggle restores the world exactly. *)
Theorem toggle_dark_mode_twice (w : World) :
  step (step w ToggleDarkMode) ToggleDarkMode = w
  /\ darkMode (st (step w ToggleDarkMode)) =
     (if mounted w then negb (darkMode (st w)) else darkMode (st w))
  /\ setDarkMode (darkMode (st w)) (st (step w ToggleDarkMode)) = st w
  /\ out (step w ToggleDarkMode) = out w
  /\ feed (step w ToggleDarkMode) = feed w
  /\ bubbles (render (st (step w ToggleDarkMode))) = bubbles (render (st w)).
Proof.
  rewrite !step_ToggleDarkMode. destruct (mounted w) eqn:M.
  - assert (mounted (toggleDarkMode w) = true) as -> by done.
    destruct w as [e m s b f i o]. destruct s as [d a u ms nm l dm].
    unfold toggleDarkMode, with_st, setDarkMode. simpl.
    rewrite negb_involutive. repeat split.
    unfold render. simpl. by destruct l.
  - rewrite M. repeat split. by destruct (st w).
Qed.

(** ** The auth observer and the feed *)

(** X12: when the auth observer reports the user the session already
    has, the dependency array is unchanged: the listener is kept, nothing
    is cancelled or opened, and the messages stay. *)
Theorem same_user_keeps_listener (w : World) (uid uuid : jsstring) :
  userId (st w) = Some uid ->
  out (step w (AuthStateChanged (Some uid) uuid)) = out w
  /\ feed (step w (AuthStateChanged (Some uid) uuid)) = feed w
  /\ messages (st (step w (AuthStateChanged (Some uid) uuid)))
     = messages (st w)
  /\ userId (st (step w (AuthStateChanged (Some uid) uuid))) = Some uid.
Proof.
  intros U. unfold step. destruct (mounted w); [|done]. simpl.
  destruct (boot w); try (by rewrite commit_same_deps).
  rewrite commit_same_deps; [done|]. unfold deps. simpl. by rewrite U.
Qed.

(** X13: when the auth observer reports a different user with a
    non-empty uid, the effect is re-run: the old listener is cancelled, one
    new listener is opened with the same query, and the messages of the
    previous user's feed stay on screen until the next snapshot. *)
Theorem user_change_resubscribes
    (evs : list Event) (sub : nat) (uid uuid : jsstring) :
  sub ∈ listeners (out (run initWorld evs)) ->
  boot (run initWorld evs) = Observing ->
  uid <> [] -> userId (st (run initWorld evs)) <> Some uid ->
  let w := run initWorld evs in
  let w' := step w (AuthStateChanged (Some uid) uuid) in
  unsubscribed (out w') = unsubscribed (out w) ++ [sub]
  /\ listeners (out w') = {[opened (out w)]}
  /\ opened (out w') = S (opened (out w))
  /\ queries (out w') !! opened (out w) = queries (out w) !! sub
  /\ userId (st w') = Some uid
  /\ messages (st w') = messages (st w).
Proof.
  intros L B T N w w'.
  destruct (live_listener evs sub L) as (F & M & _ & d & D & Q).
  destruct (run_invariant evs) as [[B1 _ B3 _ _] _].
  fold w in F, M, D, Q, B, B1, B3, N.
  assert (w' = feedEffect
                 (feedCleanup (with_st (authObserver (Some uid) uuid) w)))
    as ->.
  { subst w'. unfold step. rewrite M. simpl. rewrite B.
    apply commit_changed. unfold deps. simpl. congruence. }
  unfold feedCleanup. simpl. rewrite F. unfold feedEffect. simpl.
  rewrite D. destruct uid as [|c t]; [done|]. simpl.
  rewrite B1, F, live_set_Some, difference_diag_L, union_empty_r_L.
  repeat split. rewrite Q, <-B3.
  by rewrite lookup_app_r, Nat.sub_diag.
Qed.

(** ** Snapshots *)

(** X14: of two snapshots delivered one after the other only the second
    counts: the world is the one the second alone would have produced. *)
Theorem last_snapshot_wins
    (w : World) (sub : nat) (docs1 docs2 : list Doc)
    (clock1 clock2 : nat -> Date) :
  mounted w = true -> sub ∈ listeners (out w) ->
  step (step w (SnapshotNext sub docs1 clock1)) (SnapshotNext sub docs2 clock2)
  = step w (SnapshotNext sub docs2 clock2).
Proof.
  intros M L. rewrite (step_SnapshotNext w) by done.
  rewrite (step_SnapshotNext w) by done.
  by rewrite step_SnapshotNext.
Qed.

(** X15: the client clock enters a delivered snapshot only through the
    documents whose timestamp is still unassigned: when every document has
    its timestamp, the resulting world does not depend on the clock. *)
Theorem clock_only_for_pending
    (w : World) (sub : nat) (docs : list Doc) (clock1 clock2 : nat -> Date) :
  Forall (fun doc => is_Some (doc_createdAt (doc_data doc))) docs ->
  step w (SnapshotNext sub docs clock1) = step w (SnapshotNext sub docs clock2).
Proof.
  intros A.
  assert (fetchedMessages clock1 docs = fetchedMessages clock2 docs) as E.
  { unfold fetchedMessages. apply imap_ext. intros i doc D.
    rewrite Forall_lookup in A. destruct (A i doc D) as [ts T].
    unfold toMessage. by rewrite T. }
  unfold step. simpl. unfold snapshotNext. by rewrite E.
Qed.

(** ** The locally generated identity *)

Lemma observed_world (e : Env) (firestore firebaseAuth : nat)
    (user : option jsstring) (uuid : jsstring) :
  default uuid user <> [] ->
  run initWorld
    [Mount e (InitOk firestore firebaseAuth); SignInResolved;
     AuthStateChanged user uuid] =
  {| env := e; mounted := true;
     st := setLoading false
             (setUserId (Some (default uuid user))
                (setAuth (Some firebaseAuth)
                   (setDb (Some firestore) initialState)));
     boot := Observing; feed := Some 0; inflight := 0;
     out := onSnapshot (feedQuery e firestore)
              (signIn (signInCall e firebaseAuth) noCalls) |}.
Proof.
  intros T. unfold run, foldl. rewrite mount_InitOk.
  unfold step at 2. simpl. rewrite commit_same_deps by done.
  unfold step. simpl. rewrite commit_changed by (by destruct user).
  unfold feedCleanup, feedEffect.
  destruct user as [uid|]; simpl in *.
  - by destruct uid.
  - by destruct uuid.
Qed.


(** The run after the observer reported no user, when nothing throws. *)
Lemma local_identity_run
    (e : Env) (firestore firebaseAuth : nat) (uuid text : jsstring) :
  uuid <> [] -> trim text <> [] ->
  userId (st (started e (NoUserReported firestore firebaseAuth uuid)))
    = Some uuid
  /\ listeners (out (started e (NoUserReported firestore firebaseAuth uuid)))
     = {[0]}
  /\ queries (out (started e (NoUserReported firestore firebaseAuth uuid)))
     = [feedQuery e firestore]
  /\ writes (out (run (started e (NoUserReported firestore firebaseAuth uuid))
                   [InputChange text; Submit]))
     = [{| add_db := firestore;
           add_path := chatCollectionPath e;
           add_data := {| new_text := text; new_uid := uuid;
                          new_createdAt := serverTimestamp |} |}].
Proof.
  intros U T. unfold started, startupEvents.
  rewrite (observed_world e firestore firebaseAuth None uuid) by done.
  simpl default. split; [done|]. split; [apply union_empty_r_L|].
  split; [done|].
  - match goal with
    | |- writes (out (run ?w0 [InputChange text; Submit])) = _ =>
        change (run w0 [InputChange text; Submit])
          with (step (step w0 (InputChange text)) Submit);
        set (w1 := step w0 (InputChange text))
    end.
    assert (w1 = {| env := e; mounted := true;
                    st := setNewMessage text
                            (setLoading false
                               (setUserId (Some uuid)
                                  (setAuth (Some firebaseAuth)
                                     (setDb (Some firestore) initialState))));
                    boot := Observing; feed := Some 0; inflight := 0;
                    out := onSnapshot (feedQuery e firestore)
                             (signIn (signInCall e firebaseAuth) noCalls) |})
      as ->.
    { subst w1. unfold step. simpl. by rewrite commit_same_deps. }
    rewrite step_Submit by done.
    rewrite (handleSendMessage_ready _ firestore uuid); [done| |done|done].
    apply sendBlocked_false. split; [done|]. split; [by eexists|].
    simpl. by destruct uuid.
Qed.

Lemma observed_state (e : Env) (firestore firebaseAuth : nat)
    (user : option jsstring) (uuid : jsstring) :
  mounted (run initWorld
             [Mount e (InitOk firestore firebaseAuth); SignInResolved;
              AuthStateChanged user uuid]) = true
  /\ st (run initWorld
           [Mount e (InitOk firestore firebaseAuth); SignInResolved;
            AuthStateChanged user uuid]) =
     setLoading false
       (setUserId (Some (default uuid user))
          (setAuth (Some firebaseAuth) (setDb (Some firestore) initialState))).
Proof.
  unfold run, foldl. rewrite mount_InitOk.
  unfold step at 2. simpl. rewrite commit_same_deps by done.
  unfold step. simpl.
  match goal with
  | |- context [commit ?a ?b] =>
      destruct (boot_commit a b) as [_ ->]; rewrite (st_commit a b)
  end.
  split; [done|]. by destruct user.
Qed.

End Component.

(** * Start-up with the throws the component does not catch *)

Section Uncaught.
Context `{Platform} `{Firestore}.

Lemma commitThrowing_same_deps (before after : World) :
  deps before = deps after -> commitThrowing before after = after.
Proof. intros E. unfold commitThrowing. by rewrite decide_True. Qed.

Lemma env_feedCleanup (w : World) : env (feedCleanup w) = env w.
Proof. unfold feedCleanup. by destruct (feed w). Qed.

Lemma env_feedEffect (w : World) : env (feedEffect w) = env w.
Proof.
  unfold feedEffect. destruct (db (st w)); [|done].
  by destruct (truthy_opt (userId (st w))).
Qed.

Lemma env_commit (before after : World) :
  env (commit before after) = env after.
Proof.
  unfold commit. case_decide; [done|].
  by rewrite env_feedEffect, env_feedCleanup.
Qed.

Lemma env_handle (ev : Event) (w : World) : env (handle ev w) = env w.
Proof.
  pose proof (handle_feedPart ev w) as E. unfold feedPart in E.
  by injection E.
Qed.

(** Where [collection] accepts the path, the commit is the one without
    throws. *)
Lemma commitThrowing_accepted (before after : World) :
  collectionThrows (chatCollectionPath (env after)) = None ->
  commitThrowing before after = commit before after.
Proof.
  intros A. unfold commitThrowing, commit. case_decide; [done|]. simpl.
  rewrite env_feedCleanup, A. by destruct (subscribes (feedCleanup after)).
Qed.

Lemma stepThrowing_accepted (w : World) (ev : Event) :
  (mounted w = true -> collectionThrows (chatCollectionPath (env w)) = None) ->
  stepThrowing w ev = step w ev.
Proof.
  intros A. unfold stepThrowing, step. destruct (mounted w) eqn:M.
  2:{ by destruct ev. }
  specialize (A eq_refl).
  destruct ev; try done;
    try (apply commitThrowing_accepted; by rewrite env_handle).
  assert (handleThrowing Submit w = handle Submit w) as ->.
  { simpl. unfold handleSendMessageThrowing. rewrite A.
    unfold handleSendMessage. by destruct (sendBlocked (st w)). }
  apply commitThrowing_accepted. by rewrite env_handle.
Qed.

Lemma env_step (w : World) (ev : Event) :
  env (step w ev) =
  match ev with
  | Mount e _ => if mounted w then env w else e
  | _ => env w
  end.
Proof.
  unfold step. destruct (mounted w) eqn:M.
  - destruct ev; try done; rewrite ?env_commit, ?env_handle; try done.
    unfold unmount. simpl. apply env_feedCleanup.
  - destruct ev; try done. unfold mount. by rewrite env_commit; destruct r.
Qed.

(** A run in which [collection] accepts the path of every environment
    the component is mounted in is a run without throws. *)
Lemma runThrowing_agrees (evs : list Event) (w : World) :
  (mounted w = true -> collectionThrows (chatCollectionPath (env w)) = None) ->
  (forall e r, Mount e r ∈ evs ->
     collectionThrows (chatCollectionPath e) = None) ->
  runThrowing w (Callback <$> evs) = run w evs.
Proof.
  revert w. induction evs as [|ev evs IH]; intros w A Ms; [done|].
  change (runThrowing w (Callback <$> ev :: evs))
    with (runThrowing (stepThrowing w ev) (Callback <$> evs)).
  change (run w (ev :: evs)) with (run (step w ev) evs).
  rewrite stepThrowing_accepted by done. apply IH.
  - intros M'. rewrite env_step. destruct (mounted w) eqn:M.
    + destruct ev; by apply A.
    + destruct ev; try (unfold step in M'; rewrite M in M'; congruence).
      apply (Ms e r). by left.
  - intros e r In. apply (Ms e r). by right.
Qed.

Lemma stepThrowing_InputChange (w : World) (text : jsstring) :
  stepThrowing w (InputChange text) =
  if mounted w then with_st (setNewMessage text) w else w.
Proof.
  unfold stepThrowing. destruct (mounted w); [|done].
  by apply commitThrowing_same_deps.
Qed.

Lemma submitThrowing_without_identity (w : World) :
  userId (st w) = None -> stepThrowing w Submit = w.
Proof.
  intros U. unfold stepThrowing. destruct (mounted w); [|done].
  assert (handleThrowing Submit w = w) as ->.
  { simpl. unfold handleSendMessageThrowing, sendBlocked.
    rewrite U. simpl. by rewrite orb_true_r. }
  by apply commitThrowing_same_deps.
Qed.

Lemma startedThrowing_InitFails (e : Env) (err : Error) :
  startedThrowing e (InitFails err) = started e (InitFails err).
Proof. done. Qed.

Lemma startedThrowing_SignInFails (e : Env) (firestore firebaseAuth : nat)
    (err : Error) :
  startedThrowing e (SignInFails firestore firebaseAuth err) =
  started e (SignInFails firestore firebaseAuth err).
Proof.
  rewrite started_SignInFails.
  change (startedThrowing e (SignInFails firestore firebaseAuth err))
    with (stepThrowing
            (step initWorld (Mount e (InitOk firestore firebaseAuth)))
            (SignInRejected err)).
  rewrite mount_InitOk. unfold stepThrowing. simpl.
  by rewrite commitThrowing_same_deps.
Qed.

Lemma startedThrowing_observed (e : Env) (o : Startup) :
  reachesObserver o = true ->
  collectionThrows (chatCollectionPath e) = None ->
  startedThrowing e o = started e o.
Proof.
  intros R A. unfold startedThrowing, started.
  apply runThrowing_agrees; [done|].
  intros e' r In. destruct o; try done; simpl in In;
    (apply elem_of_cons in In as [E|In]; [by injection E as -> _|]);
    (apply elem_of_cons in In as [In|In]; [done|]);
    (apply elem_of_cons in In as [In|In]; [done|]);
    by apply elem_of_nil in In.
Qed.

(** C7: take a start-up in which the first render succeeds and
    [setupFirebase] settles: it throws before its [await], the sign-in is
    rejected, or the sign-in resolves and the auth observer is called, with
    a user or with [null] and an id from [crypto.randomUUID()]; in the last
    two cases let [collection] accept the chat path.  Then the component is
    mounted with [loading] [false] and shows the chat screen.  On a throw or
    a rejected sign-in the error is in the console and the session has no
    identity: [userId] stays [null], no feed listener is opened, the thread
    shows the placeholder and submitting does nothing.  When the observer
    is called, [userId] is the reported uid or, with no user, the locally
    generated id; if that id is not empty the session is ready and its
    feed listener is open. *)
Theorem startup_leaves_loading (e : Env) (o : Startup) :
  (reachesObserver o = true ->
   collectionThrows (chatCollectionPath e) = None) ->
  mounted (startedThrowing e o) = true
  /\ loading (st (startedThrowing e o)) = false
  /\ render (st (startedThrowing e o)) <> LoadingChat
  /\ match o with
     | InitFails err | SignInFails _ _ err =>
         degraded (startedThrowing e o)
         /\ (forall text,
               stepThrowing
                 (stepThrowing (startedThrowing e o) (InputChange text))
                 Submit
               = stepThrowing (startedThrowing e o) (InputChange text))
         /\ ErrorSettingUpFirebase err ∈ console (out (startedThrowing e o))
     | UserReported _ _ id | NoUserReported _ _ id =>
         userId (st (startedThrowing e o)) = Some id
         /\ (id <> [] ->
             ready (st (startedThrowing e o))
             /\ listeners (out (startedThrowing e o)) = {[0]})
     end.
Proof.
  intros A.
  assert (forall w : World,
            mounted w = true -> userId (st w) = None ->
            forall text,
              stepThrowing (stepThrowing w (InputChange text)) Submit
              = stepThrowing w (InputChange text)) as Inert.
  { intros w M U text. apply submitThrowing_without_identity.
    rewrite stepThrowing_InputChange, M. done. }
  assert (forall s : AppState, loading s = false -> render s <> LoadingChat)
    as Shown.
  { intros s L. unfold render. by rewrite L. }
  destruct o as [err|fs fa err|fs fa uid|fs fa uuid].
  - rewrite startedThrowing_InitFails, started_InitFails.
    split; [done|]. split; [done|]. split; [by apply Shown|].
    split; [by apply degraded_without_identity|].
    split; [by apply Inert|]. simpl. by constructor.
  - rewrite startedThrowing_SignInFails, started_SignInFails.
    split; [done|]. split; [done|]. split; [by apply Shown|].
    split; [by apply degraded_without_identity|].
    split; [by apply Inert|]. simpl. by constructor.
  - rewrite startedThrowing_observed by auto.
    destruct (observed_state e fs fa (Some uid) []) as [M S].
    unfold started, startupEvents. rewrite M, S.
    split; [done|]. split; [done|]. split; [by apply Shown|].
    split; [done|]. intros N.
    rewrite (observed_world e fs fa (Some uid) []) by done. simpl.
    split; [|apply union_empty_r_L]. split; [by eexists|by destruct uid].
  - rewrite startedThrowing_observed by auto.
    destruct (observed_state e fs fa None uuid) as [M S].
    unfold started, startupEvents. rewrite M, S.
    split; [done|]. split; [done|]. split; [by apply Shown|].
    split; [done|]. intros N.
    rewrite (observed_world e fs fa None uuid) by done. simpl.
    split; [|apply union_empty_r_L]. split; [by eexists|by destruct uuid].
Qed.

(** X16: when the auth observer reports no user and [collection] accepts
    the chat path, the non-empty id returned by [crypto.randomUUID()]
    becomes the session's [userId] and the session runs like a signed-in
    one: the feed listener is opened, and a message typed and submitted is
    written with that local id as [uid]. *)
Theorem local_identity_is_used
    (e : Env) (firestore firebaseAuth : nat) (uuid text : jsstring) :
  collectionThrows (chatCollectionPath e) = None ->
  uuid <> [] -> trim text <> [] ->
  userId (st (startedThrowing e (NoUserReported firestore firebaseAuth uuid)))
    = Some uuid
  /\ listeners
       (out (startedThrowing e (NoUserReported firestore firebaseAuth uuid)))
     = {[0]}
  /\ queries
       (out (startedThrowing e (NoUserReported firestore firebaseAuth uuid)))
     = [feedQuery e firestore]
  /\ writes
       (out (runThrowing
               (startedThrowing e
                  (NoUserReported firestore firebaseAuth uuid))
               [Callback (InputChange text); Callback Submit]))
     = [{| add_db := firestore;
           add_path := chatCollectionPath e;
           add_data := {| new_text := text; new_uid := uuid;
                          new_createdAt := serverTimestamp |} |}].
Proof.
  intros A U T.
  destruct (local_identity_run e firestore firebaseAuth uuid text U T)
    as (I & L & Q & W).
  rewrite startedThrowing_observed by done.
  split; [done|]. split; [done|]. split; [done|].
  rewrite <-W.
  change [Callback (InputChange text); Callback Submit]
    with (Callback <$> [InputChange text; Submit]).
  f_equal. f_equal. apply runThrowing_agrees.
  - intros _. unfold started, startupEvents.
    rewrite (observed_world e firestore firebaseAuth None uuid) by done.
    done.
  - intros e' r In.
    apply elem_of_cons in In as [In|In]; [done|].
    apply elem_of_cons in In as [In|In]; [done|].
    by apply elem_of_nil in In.
Qed.

End Uncaught.

(** * The properties at work on sample data *)

Section Samples.
#[local] Existing Instance utcPlatform.

Lemma readyWorld_live : 0 ∈ listeners (out readyWorld).
Proof. by vm_compute. Defined.

Lemma blank_submit_is_noop_witness :
  trim (newMessage (st blankWorld)) = []
  /\ step blankWorld Submit = blankWorld
  /\ writes (out (step blankWorld Submit)) = writes (out blankWorld).
Proof.
  assert (trim (newMessage (st blankWorld)) = []) as E by reflexivity.
  split; [exact E|]. exact (blank_submit_is_noop blankWorld E).
Defined.

Lemma typedWorld_ready :
  mounted typedWorld = true
  /\ trim (newMessage (st typedWorld)) <> []
  /\ ready (st typedWorld).
Proof.
  split; [reflexivity|]. split; [by vm_compute|].
  split; [by eexists|reflexivity].
Defined.

Lemma submit_stores_raw_text_witness :
  trim (newMessage (st typedWorld)) = lit "hi"
  /\ exists a,
       writes (out (step typedWorld Submit)) = writes (out typedWorld) ++ [a]
       /\ new_text (add_data a) = lit " hi ".
Proof.
  split; [reflexivity|].
  destruct typedWorld_ready as (M & T & R).
  destruct (submit_stores_raw_text typedWorld M T R) as (a & W & X & _).
  exists a. split; [exact W|exact X].
Defined.

Lemma submit_settles_buffer_witness :
  newMessage (st (run typedWorld [Submit; AddDocResolved])) = []
  /\ newMessage (st (run typedWorld [Submit; AddDocRejected (lit "offline")]))
     = lit " hi "
  /\ console (out (run typedWorld [Submit; AddDocRejected (lit "offline")]))
     = [ErrorSendingMessage (lit "offline")]
  /\ length (writes (out (run typedWorld
                            [Submit; AddDocRejected (lit "offline")]))) = 1.
Proof.
  destruct typedWorld_ready as (M & T & R).
  destruct (submit_settles_buffer typedWorld [] (lit "offline") M T R)
    as (W1 & S1 & Ok & Ko & C & W2 & _).
  split; [exact Ok|]. split; [|split].
  - change (newMessage (st (step (step typedWorld Submit)
                              (AddDocRejected (lit "offline")))) = lit " hi ").
    change (run (step typedWorld Submit) (InputChange <$> [])) with
      (step typedWorld Submit) in Ko.
    rewrite Ko, S1. reflexivity.
  - exact C.
  - change (length (writes (out (step (step typedWorld Submit)
                                   (AddDocRejected (lit "offline"))))) = 1).
    change (run (step typedWorld Submit) (InputChange <$> [])) with
      (step typedWorld Submit) in W2.
    rewrite W2. exact W1.
Defined.

Lemma snapshot_replaces_messages_witness :
  mounted readyWorld = true /\ 0 ∈ listeners (out readyWorld)
  /\ length (messages (st (step readyWorld
                             (SnapshotNext 0 pendingDocs sampleClock)))) = 3
  /\ messages (st (step (step readyWorld
                           (SnapshotNext 0 pendingDocs sampleClock))
                     (SnapshotNext 0 [] sampleClock))) = [].
Proof.
  split; [reflexivity|]. split; [exact readyWorld_live|]. split.
  - exact (proj1 (snapshot_replaces_messages readyWorld 0 pendingDocs
                    sampleClock eq_refl readyWorld_live)).
  - assert (0 ∈ listeners (out (step readyWorld
                                  (SnapshotNext 0 pendingDocs sampleClock))))
      as L by (by vm_compute).
    exact (proj1 (proj2 (snapshot_replaces_messages
                           (step readyWorld
                              (SnapshotNext 0 pendingDocs sampleClock))
                           0 [] sampleClock eq_refl L)) eq_refl).
Defined.

Lemma snapshot_error_only_logged_witness :
  mounted readyWorld = true /\ 0 ∈ listeners (out readyWorld)
  /\ st (step readyWorld (SnapshotError 0 (lit "denied"))) = st readyWorld
  /\ console (out (step readyWorld (SnapshotError 0 (lit "denied"))))
     = [ErrorFetchingMessages (lit "denied")].
Proof.
  split; [reflexivity|]. split; [exact readyWorld_live|].
  destruct (snapshot_error_only_logged readyWorld 0 (lit "denied")
              eq_refl readyWorld_live) as (S & _ & _ & C & _).
  split; [exact S|exact C].
Defined.

Lemma own_message_styling_witness :
  loading (st chattingWorld) = false
  /\ messages (st chattingWorld) =
     [sampleMessage "m1" alice "hi" 100000;
      sampleMessage "m2" bob "hello" 125000]
  /\ (exists b, bubbles (render (st chattingWorld)) !! 0 = Some b
                /\ b_row b = "flex-row-reverse" /\ b_label b = None)
  /\ (exists b, bubbles (render (st chattingWorld)) !! 1 = Some b
                /\ b_row b = "flex-row" /\ b_label b = Some bob).
Proof.
  split; [reflexivity|]. split; [reflexivity|]. split.
  - destruct (own_message_styling (st chattingWorld) 0
                (sampleMessage "m1" alice "hi" 100000) eq_refl eq_refl)
      as (b & B & _ & _ & _ & Own & _).
    exists b. destruct (Own eq_refl) as (R & _ & _ & L).
    split; [exact B|]. split; [exact R|exact L].
  - destruct (own_message_styling (st chattingWorld) 1
                (sampleMessage "m2" bob "hello" 125000) eq_refl eq_refl)
      as (b & B & _ & _ & _ & _ & Other).
    exists b. assert (userId (st chattingWorld) <> Some bob) as N.
    { vm_compute. discriminate. }
    destruct (Other N) as (R & _ & _ & L).
    split; [exact B|]. split; [exact R|exact L].
Defined.

Lemma sampleDocs_ascending : ascending sampleDocs.
Proof.
  intros i j a b Hij Di Dj.
  destruct i as [|[|i]]; destruct j as [|[|j]];
    try (exfalso; lia); try discriminate Di; try discriminate Dj;
    injection Di as <-; injection Dj as <-;
    eexists _, _; (split; [reflexivity|split; [reflexivity|]]);
    unfold ts_le; simpl; lia.
Defined.

Lemma thread_follows_snapshot_order_witness :
  0 ∈ listeners (out (run initWorld readyEvents))
  /\ ascending sampleDocs
  /\ b_key <$> bubbles (render (st chattingWorld)) = [lit "m1"; lit "m2"]
  /\ b_time <$> bubbles (render (st chattingWorld))
     = [lit "00:01:40"; lit "00:02:05"]
  /\ exists q, queries (out readyWorld) !! 0 = Some q
               /\ q_orderBy q = lit "createdAt" /\ q_direction q = Asc.
Proof.
  split; [exact readyWorld_live|]. split; [exact sampleDocs_ascending|].
  destruct (thread_follows_snapshot_order readyEvents 0 sampleDocs
              sampleClock readyWorld_live) as ((q & Q & _ & O & D) & _ & K & A).
  split; [exact K|]. split; [reflexivity|].
  exists q. split; [exact Q|]. split; [exact O|exact D].
Defined.

(** The snapshot is rendered as delivered, also when it is not in
    timestamp order: the component does not sort. *)
Example swapped_snapshot_rendered_as_delivered :
  b_key <$> bubbles (render (st (step readyWorld
                                   (SnapshotNext 0 swappedDocs sampleClock))))
  = [lit "m2"; lit "m1"].
Proof. reflexivity. Qed.

(** A document without timestamp is shown with the client's clock. *)
Example pending_document_shows_client_time :
  msg_createdAt <$> messages (st (step readyWorld
                                    (SnapshotNext 0 pendingDocs sampleClock)))
  = [100000; 125000; 200002]%Z.
Proof. reflexivity. Qed.

(** When the auth observer reports no user, the session continues under
    the locally generated identity, and the feed is opened with it. *)
Example no_user_gets_local_identity :
  userId (st (started defaultEnv (NoUserReported 1 2 (lit "7f3c")))) =
    Some (lit "7f3c")
  /\ size (listeners (out (started defaultEnv
                             (NoUserReported 1 2 (lit "7f3c"))))) = 1.
Proof. split; reflexivity. Qed.

(** Mount and unmount twice, with a change of user in the first cycle:
    three listeners were opened, each was cancelled once, none is left. *)
Example two_cycles :
  let w := run initWorld
             (readyEvents ++ [AuthStateChanged (Some bob) []; Unmount]
              ++ readyEvents ++ [Unmount]) in
  opened (out w) = 3 /\ unsubscribed (out w) = [0; 1; 2]
  /\ elements (listeners (out w)) = [].
Proof. repeat split; reflexivity. Qed.

End Samples.

Section ComponentSamples.
#[local] Existing Instance utcPlatform.

Lemma submit_without_session_is_noop_witness :
  ~ ready (st strandedWorld)
  /\ newMessage (st strandedWorld) = lit "hi"
  /\ step strandedWorld Submit = strandedWorld.
Proof.
  assert (~ ready (st strandedWorld)) as NR.
  { intros [_ T]. vm_compute in T. discriminate T. }
  split; [exact NR|]. split; [reflexivity|].
  exact (submit_without_session_is_noop strandedWorld NR).
Defined.

Lemma double_submit_sends_twice_witness :
  writes (out typedWorld) = []
  /\ exists a,
       writes (out (run typedWorld [Submit; Submit])) = [a; a]
       /\ new_text (add_data a) = lit " hi ".
Proof.
  split; [reflexivity|].
  destruct typedWorld_ready as (M & T & R).
  destruct (double_submit_sends_twice typedWorld M T R) as (a & W & X & _).
  exists a. split; [exact W|exact X].
Defined.

Lemma write_targets_subscribed_collection_witness :
  writes (out (step (run initWorld (readyEvents ++ [InputChange (lit " hi ")]))
                 Submit))
  = writes (out (run initWorld (readyEvents ++ [InputChange (lit " hi ")])))
    ++ [sentRecord defaultEnv 1 alice (st typedWorld)]
  /\ exists sub q,
       listeners (out (run initWorld
                         (readyEvents ++ [InputChange (lit " hi ")])))
         = {[sub]}
       /\ queries (out (run initWorld
                          (readyEvents ++ [InputChange (lit " hi ")])))
            !! sub = Some q
       /\ q_db q = 1
       /\ q_path q = chatCollectionPath defaultEnv.
Proof.
  assert (writes (out (step (run initWorld
                               (readyEvents ++ [InputChange (lit " hi ")]))
                         Submit))
          = writes (out (run initWorld
                           (readyEvents ++ [InputChange (lit " hi ")])))
            ++ [sentRecord defaultEnv 1 alice (st typedWorld)]) as W
    by reflexivity.
  split; [exact W|].
  exact (write_targets_subscribed_collection
           (readyEvents ++ [InputChange (lit " hi ")])
           (sentRecord defaultEnv 1 alice (st typedWorld)) W).
Defined.

Lemma send_button_follows_guard_witness :
  loading (st blankWorld) = false
  /\ exists c, render (st blankWorld) = ChatUI c
               /\ c_input c = [32; 9; 12288]%N
               /\ c_sendDisabled c = true.
Proof.
  split; [reflexivity|].
  destruct (send_button_follows_guard blankWorld eq_refl)
    as (c & R & I & D & _).
  exists c. split; [exact R|]. split; [exact I|].
  apply D. reflexivity.
Defined.

Lemma loading_never_returns_witness :
  mounted readyWorld = true /\ loading (st readyWorld) = false
  /\ render (st (run readyWorld
                   [InputChange (lit "hi"); Submit;
                    AddDocRejected (lit "offline");
                    SnapshotError 0 (lit "denied"); ToggleDarkMode;
                    AuthStateChanged None (lit "7f3c")]))
     <> LoadingChat.
Proof.
  split; [reflexivity|]. split; [reflexivity|].
  refine (proj2 (proj2 (loading_never_returns readyWorld _ eq_refl eq_refl _))).
  intros In.
  repeat (apply elem_of_cons in In as [In|In]; [discriminate In|]).
  exact (proj1 (elem_of_nil _) In).
Defined.

Lemma same_user_keeps_listener_witness :
  userId (st chattingWorld) = Some alice
  /\ out (step chattingWorld (AuthStateChanged (Some alice) [])) =
     out chattingWorld
  /\ messages (st (step chattingWorld (AuthStateChanged (Some alice) [])))
     = messages (st chattingWorld).
Proof.
  split; [reflexivity|].
  destruct (same_user_keeps_listener chattingWorld alice [] eq_refl)
    as (O & _ & Ms & _).
  split; [exact O|exact Ms].
Defined.

Lemma user_change_resubscribes_witness :
  0 ∈ listeners (out (run initWorld readyEvents))
  /\ boot (run initWorld readyEvents) = Observing
  /\ unsubscribed (out (step readyWorld (AuthStateChanged (Some bob) [])))
     = [0]
  /\ listeners (out (step readyWorld (AuthStateChanged (Some bob) [])))
     = {[1]}.
Proof.
  split; [exact readyWorld_live|]. split; [reflexivity|].
  assert (bob <> []) as B by discriminate.
  assert (userId (st (run initWorld readyEvents)) <> Some bob) as N.
  { vm_compute. discriminate. }
  destruct (user_change_resubscribes readyEvents 0 bob [] readyWorld_live
              eq_refl B N) as (U & L & _).
  split; [exact U|exact L].
Defined.

Lemma last_snapshot_wins_witness :
  mounted readyWorld = true /\ 0 ∈ listeners (out readyWorld)
  /\ step (step readyWorld (SnapshotNext 0 pendingDocs sampleClock))
       (SnapshotNext 0 sampleDocs sampleClock)
     = chattingWorld.
Proof.
  split; [reflexivity|]. split; [exact readyWorld_live|].
  exact (last_snapshot_wins readyWorld 0 pendingDocs sampleDocs sampleClock
           sampleClock eq_refl readyWorld_live).
Defined.

Lemma sampleDocs_assigned :
  Forall (fun doc => is_Some (doc_createdAt (doc_data doc))) sampleDocs.
Proof. repeat constructor; by eexists. Defined.

Lemma clock_only_for_pending_witness :
  Forall (fun doc => is_Some (doc_createdAt (doc_data doc))) sampleDocs
  /\ step readyWorld (SnapshotNext 0 sampleDocs (fun _ => 0%Z)) = chattingWorld.
Proof.
  split; [exact sampleDocs_assigned|].
  exact (clock_only_for_pending readyWorld 0 sampleDocs (fun _ => 0%Z)
           sampleClock sampleDocs_assigned).
Defined.


(** The clock does matter for a document still waiting for its time. *)
Example pending_document_depends_on_clock :
  step readyWorld (SnapshotNext 0 pendingDocs (fun _ => 0%Z))
  <> step readyWorld (SnapshotNext 0 pendingDocs sampleClock).
Proof. intros E. apply (f_equal (fun w => messages (st w))) in E.
  vm_compute in E. discriminate E. Qed.

End ComponentSamples.

Section UncaughtSamples.
#[local] Existing Instance utcPlatform.
#[local] Existing Instance sampleFirestore.

Lemma write_has_session_author_and_server_time_witness :
  mounted typedWorld = true
  /\ trim (newMessage (st typedWorld)) <> []
  /\ ready (st typedWorld)
  /\ writes (out (step typedWorld Submit)) =
     [{| add_db := 1;
         add_path := chatCollectionPath defaultEnv;
         add_data := {| new_text := lit " hi "; new_uid := alice;
                        new_createdAt := serverTimestamp |} |}].
Proof.
  destruct typedWorld_ready as (M & T & R).
  split; [exact M|]. split; [exact T|]. split; [exact R|].
  pose proof (write_has_session_author_and_server_time [] Submit typedWorld)
    as P.
  cbv zeta in P. destruct P as (P & _).
  destruct (P M T R) as (d & u & D & U & W).
  assert (Some d = Some 1) as Ed by (rewrite <-D; reflexivity).
  assert (Some u = Some alice) as Eu by (rewrite <-U; reflexivity).
  injection Ed as ->. injection Eu as ->. exact W.
Defined.

Lemma default_path_accepted :
  collectionThrows (chatCollectionPath defaultEnv) = None.
Proof. reflexivity. Defined.

Lemma startup_leaves_loading_witness :
  (reachesObserver (NoUserReported 1 2 (lit "7f3c")) = true ->
   collectionThrows (chatCollectionPath defaultEnv) = None)
  /\ mounted (startedThrowing defaultEnv (NoUserReported 1 2 (lit "7f3c")))
     = true
  /\ loading
       (st (startedThrowing defaultEnv (NoUserReported 1 2 (lit "7f3c"))))
     = false
  /\ userId
       (st (startedThrowing defaultEnv (NoUserReported 1 2 (lit "7f3c"))))
     = Some (lit "7f3c").
Proof.
  assert (reachesObserver (NoUserReported 1 2 (lit "7f3c")) = true ->
          collectionThrows (chatCollectionPath defaultEnv) = None) as A.
  { intros _. exact default_path_accepted. }
  split; [exact A|].
  destruct (startup_leaves_loading defaultEnv
              (NoUserReported 1 2 (lit "7f3c")) A) as (M & L & _ & U & _).
  split; [exact M|]. split; [exact L|exact U].
Defined.

(** The start-up in which the auth observer reports no user does not end
    without identity: the session has the local id, is ready, holds a feed
    listener and is not in the degraded state. *)
Lemma startup_without_user_has_identity :
  userId (st (startedThrowing defaultEnv (NoUserReported 1 2 (lit "7f3c"))))
    = Some (lit "7f3c")
  /\ ready (st (startedThrowing defaultEnv (NoUserReported 1 2 (lit "7f3c"))))
  /\ 0 ∈ listeners
           (out (startedThrowing defaultEnv
                   (NoUserReported 1 2 (lit "7f3c"))))
  /\ ~ degraded (startedThrowing defaultEnv (NoUserReported 1 2 (lit "7f3c"))).
Proof.
  split; [reflexivity|]. split; [split; [by eexists|reflexivity]|].
  split; [by vm_compute|].
  intros [U _]. vm_compute in U. discriminate U.
Qed.

Lemma local_identity_is_used_witness :
  collectionThrows (chatCollectionPath defaultEnv) = None
  /\ lit "7f3c" <> [] /\ trim (lit "hi") <> []
  /\ userId
       (st (startedThrowing defaultEnv (NoUserReported 1 2 (lit "7f3c"))))
     = Some (lit "7f3c")
  /\ new_uid <$> (add_data <$>
       writes (out (runThrowing
                      (startedThrowing defaultEnv
                         (NoUserReported 1 2 (lit "7f3c")))
                      [Callback (InputChange (lit "hi")); Callback Submit])))
     = [lit "7f3c"].
Proof.
  assert (lit "7f3c" <> []) as U by discriminate.
  assert (trim (lit "hi") <> []) as T by (vm_compute; discriminate).
  split; [exact default_path_accepted|]. split; [exact U|]. split; [exact T|].
  destruct (local_identity_is_used defaultEnv 1 2 (lit "7f3c") (lit "hi")
              default_path_accepted U T) as (I & _ & _ & W).
  split; [exact I|]. rewrite W. reflexivity.
Defined.

(** With [__app_id] the empty string the chat path has an empty segment:
    [collection] throws in the effect as soon as the observer has reported
    a user, no listener is opened and the tree is gone. *)
Example rejected_path_discards_the_tree :
  collectionThrows (chatCollectionPath emptyAppEnv) <> None
  /\ mounted (startedThrowing emptyAppEnv (UserReported 1 2 alice)) = false
  /\ opened (out (startedThrowing emptyAppEnv (UserReported 1 2 alice))) = 0.
Proof. split; [discriminate|]. split; reflexivity. Qed.

(** A rejected path does not matter when the sign-in fails: the effect
    never reaches [collection]. *)
Example rejected_path_unused_without_identity :
  mounted (startedThrowing emptyAppEnv (SignInFails 1 2 (lit "offline")))
    = true
  /\ loading
       (st (startedThrowing emptyAppEnv (SignInFails 1 2 (lit "offline"))))
     = false.
Proof. split; reflexivity. Qed.

(** A first render that throws mounts nothing, and no effect runs. *)
Example first_render_throw_mounts_nothing :
  runThrowing initWorld
    [FirstRenderThrows defaultEnv (lit "SyntaxError"); Callback SignInResolved]
  = initWorld.
Proof. reflexivity. Qed.

(** When [crypto.randomUUID()] throws in the observer, no setter is
    reached and the loading screen stays. *)
Example random_uuid_throw_keeps_loading :
  render (st (runThrowing initWorld
                [Callback (Mount defaultEnv (InitOk 1 2));
                 Callback SignInResolved;
                 RandomUUIDThrows (lit "TypeError")]))
  = LoadingChat.
Proof. reflexivity. Qed.

End UncaughtSamples.

